(** * MRI-EM-Threshold: induced voltage sweep for an ellipsoidal head model

    Shallow embedding of [internal_voltage.py] (batch variant, module
    [Batch]) and [i-o_internal_voltage.py] (interactive variant, module
    [IO]), followed by the properties of the sweep.

    Numeric model.  The scripts compute with Python floats.  Here a float is
    read as the real number it stands for: [R] of the Standard Library, with
    [math.pi] as [PI], decimal literals as the rationals they denote and
    [+], [*], [/], [abs], [max], [**] as the exact operations.  Rounding,
    overflow, infinities and NaN are outside this model; every statement
    below is a statement about exact arithmetic. *)

From Stdlib Require Import Reals Lra Lia List ZArith String Ascii Bool.
Import ListNotations.
Open Scope R_scope.

(** ** Python comparisons and builtins on floats *)

Module Py.

Definition le (x y : R) : bool := if Rle_dec x y then true else false.
Definition lt (x y : R) : bool := if Rlt_dec x y then true else false.
Definition eq (x y : R) : bool := if Req_dec_T x y then true else false.

(** [max(a, c)]: the first argument unless the second is greater. *)
Definition max (a c : R) : R := if lt a c then c else a.

(** [abs(x)] *)
Definition abs (x : R) : R := if lt x 0 then - x else x.

(** What a Python call can end in. *)
Inductive exn : Type :=
| ZeroDivisionError
| NameError
| EOFError.

Inductive result (A : Type) : Type :=
| Ok (a : A)
| Raise (e : exn).
Arguments Ok {A} a.
Arguments Raise {A} e.

Definition bind {A B : Type} (m : result A) (k : A -> result B) : result B :=
  match m with
  | Ok a => k a
  | Raise e => Raise e
  end.

(** [c.lower()] for one character: the ASCII capitals move to their small
    letters, every other byte stays. *)
Definition lower_ascii (c : ascii) : ascii :=
  let n := nat_of_ascii c in
  if (Nat.leb 65 n && Nat.leb n 90)%bool then ascii_of_nat (n + 32) else c.

(** [s.lower()], on the bytes of [s].  Bytes outside ASCII stay as they are;
    Python lowers some characters outside ASCII too, but none of them to a
    letter of "yes", which is all the scripts compare the result with. *)
Fixpoint lower (s : string) : string :=
  match s with
  | EmptyString => EmptyString
  | String c rest => String (lower_ascii c) (lower rest)
  end.

(** [s in options] for a list of strings. *)
Fixpoint str_in (s : string) (options : list string) : bool :=
  match options with
  | [] => false
  | o :: rest => if String.eqb s o then true else str_in s rest
  end.

(** A slice bound [k] of [seq[k:...]] or [seq[...:k]] on a sequence of
    length [len]: a negative bound counts from the end, and the result is
    clamped to the sequence. *)
Definition slice_bound (len k : Z) : Z :=
  if (k <? 0)%Z then Z.max 0 (len + k) else Z.min k len.

(** [seq[start:stop]] *)
Definition slice {A : Type} (l : list A) (start stop : Z) : list A :=
  let len := Z.of_nat (List.length l) in
  let a := slice_bound len start in
  let b := slice_bound len stop in
  firstn (Z.to_nat (b - a)) (skipn (Z.to_nat a) l).

End Py.

Notation "x <- m ;; k" := (Py.bind m (fun x => k))
  (at level 61, m at next level, right associativity).

(** ** Console output

    A printed line is an f-string: literal text and interpolated values.
    The decimal rendering of a float is not modelled; an interpolation keeps
    the value and its format. *)

Inductive piece : Type :=
| Lit (s : string)            (* literal text *)
| Val (x : R)                 (* {x} *)
| Fix (digits : nat) (x : R)  (* {x:.<digits>f} *)
| Int (n : Z).                (* {n} for an int *)

Definition line : Type := list piece.
Definition console : Type := list line.

Definition nl : string := String (ascii_of_nat 10) EmptyString.

(** [s * n] on strings *)
Fixpoint str_mul (s : string) (n : nat) : string :=
  match n with
  | O => EmptyString
  | S k => (s ++ str_mul s k)%string
  end.

(** ** i-o_internal_voltage.py *)

Module IO.

(** Head/brain ellipsoid dimensions (metres). *)
Definition head_a : R := 0.09.
Definition head_b : R := 0.09.
Definition head_c : R := 0.065.

Definition calculate_induced_voltage (dB_dt a b c : R) : R :=
  let A_max := PI * a * c in
  let V_induced := Py.abs dB_dt * A_max in
  V_induced.

Definition calculate_max_electric_field (dB_dt a c : R) : R :=
  let r_max := Py.max a c in
  let E_max := (r_max / 2) * Py.abs dB_dt in
  E_max.

(** *** get_user_input

    [float(input(...))] either yields a number or raises [ValueError];
    the keyboard is the list of these outcomes, in the order typed.  An
    exhausted keyboard is [EOFError]. *)

Inductive entry : Type :=
| Parsed (x : R)
| Malformed.

Definition banner_line (n : nat) : line := [Lit (str_mul "=" n)].
Definition nl_banner_line (n : nat) : line := [Lit (nl ++ str_mul "=" n)].

Definition prompt_dB_dt : line := [Lit (nl ++ "Enter maximum dB/dt value (T/s): ")].
Definition prompt_B_max : line := [Lit "Enter maximum B field strength (T): "].
Definition err_dB_dt : line := [Lit "Error: dB/dt must be positive. Please try again."].
Definition err_B_max : line := [Lit "Error: B_max must be positive. Please try again."].
Definition err_number : line := [Lit "Error: Please enter a valid number."].

(** First [while True] loop: one keyboard entry per iteration. *)
Fixpoint read_max_dB_dt (keys : list entry) (out : console)
  : Py.result (R * list entry * console) :=
  match keys with
  | [] => Py.Raise Py.EOFError
  | Parsed max_dB_dt :: rest =>
      if Py.le max_dB_dt 0
      then read_max_dB_dt rest (out ++ [prompt_dB_dt; err_dB_dt])
      else Py.Ok (max_dB_dt, rest, out ++ [prompt_dB_dt])
  | Malformed :: rest =>
      read_max_dB_dt rest (out ++ [prompt_dB_dt; err_number])
  end.

(** Second [while True] loop. *)
Fixpoint read_B_max (keys : list entry) (out : console)
  : Py.result (R * list entry * console) :=
  match keys with
  | [] => Py.Raise Py.EOFError
  | Parsed B_max :: rest =>
      if Py.le B_max 0
      then read_B_max rest (out ++ [prompt_B_max; err_B_max])
      else Py.Ok (B_max, rest, out ++ [prompt_B_max])
  | Malformed :: rest =>
      read_B_max rest (out ++ [prompt_B_max; err_number])
  end.

Record user_input : Type := {
  in_max_dB_dt : R;
  in_B_max : R;
  in_keys : list entry;   (* what is left of the keyboard *)
  in_out : console        (* what has been printed *)
}.

Definition get_user_input (keys : list entry) : Py.result user_input :=
  let out := [banner_line 60;
              [Lit "MRI INDUCED VOLTAGE CALCULATOR - I/O SCRIPT"];
              banner_line 60] in
  r1 <- read_max_dB_dt keys out ;;
  let '(max_dB_dt, keys1, out1) := r1 in
  r2 <- read_B_max keys1 out1 ;;
  let '(B_max, keys2, out2) := r2 in
  Py.Ok {| in_max_dB_dt := max_dB_dt; in_B_max := B_max;
           in_keys := keys2; in_out := out2 |}.

(** *** run_simulation *)

(** One dict appended to [results]; a field per column. *)
Record row : Type := {
  Step : Z;
  dB_dt : R;                 (* 'dB/dt (T/s)' *)
  Induced_Voltage : R;       (* 'Induced Voltage (V)' *)
  Max_E_field : R;           (* 'Max E-field (V/m)' *)
  Max_Current_Density : R;   (* 'Max Current Density (A/m²)' *)
  Power_Density : R          (* 'Power Density (W/m³)' *)
}.

Definition DataFrame : Type := list row.

(** The variables of [run_simulation] that outlive an iteration: the list
    [results] and the loop-local [E_max], which the code reads again after
    the loop.  [None] is an unbound name. *)
Record loop_state : Type := {
  results : list row;
  E_max : option R
}.

Definition loop_init : loop_state := {| results := []; E_max := None |}.

Definition loop_body (dB_dt_increment : R) (st : loop_state) (i : nat)
  : loop_state :=
  let B_ROC := INR i * dB_dt_increment in
  let V_INT := calculate_induced_voltage B_ROC head_a head_b head_c in
  let E_max := calculate_max_electric_field B_ROC head_a head_c in
  let sigma_brain := 0.33 in
  let J_max := sigma_brain * E_max in
  {| results := results st ++
       [ {| Step := Z.of_nat i;
            dB_dt := B_ROC;
            Induced_Voltage := V_INT;
            Max_E_field := E_max;
            Max_Current_Density := J_max;
            Power_Density := sigma_brain * E_max ^ 2 |} ];
     E_max := Some E_max |}.

(** [for i in range(NUM_STEPS + 1)] *)
Definition sweep_loop (NUM_STEPS : nat) (dB_dt_increment : R) : loop_state :=
  fold_left (loop_body dB_dt_increment) (seq 0 (NUM_STEPS + 1)) loop_init.

(** [df[col].max()] *)
Definition column_max (col : row -> R) (df : DataFrame) : option R :=
  match df with
  | [] => None
  | r :: rest => Some (fold_left (fun m r' => Rmax m (col r')) rest (col r))
  end.

Definition parameter_lines (NUM_STEPS : nat) (max_dB_dt B_max : R) : console :=
  [ nl_banner_line 60;
    [Lit "SIMULATION PARAMETERS"];
    banner_line 60;
    [Lit "Ellipsoid dimensions:"];
    [Lit "  a (lateral): "; Fix 1 (head_a * 100); Lit " cm"];
    [Lit "  b (anterior-posterior): "; Fix 1 (head_b * 100); Lit " cm"];
    [Lit "  c (superior-inferior): "; Fix 1 (head_c * 100); Lit " cm"];
    [Lit "  Cross-sectional area (a*c): ";
     Fix 2 (PI * head_a * head_c * 10000); Lit " cm²"];
    [Lit (nl ++ "B field orientation: Parallel to y-axis (patient lying down)")];
    [Lit "Maximum B field: "; Val B_max; Lit " T"];
    [Lit "Maximum dB/dt: "; Val max_dB_dt; Lit " T/s"];
    [Lit "Number of steps: "; Int (Z.of_nat NUM_STEPS)];
    [Lit "dB/dt increment: "; Fix 6 (max_dB_dt / INR NUM_STEPS); Lit " T/s"];
    banner_line 60 ].

(** [if B_max == 7: print(...)] *)
Definition high_field_lines (B_max : R) : console :=
  if Py.eq B_max 7 then [[Lit "***Caution! High Field***"]] else [].

(** The [if]/[elif] cascade on [E_max] after the loop. *)
Definition bioeffect_lines (E_max : R) : console :=
  if Py.le 0.1 E_max && Py.le E_max 1 then
    [[Lit "Subtle Neuromodulation"]]
  else if Py.lt 1 E_max && Py.le E_max 10 then
    [[Lit "***PERIPHERAL NERVE STIMULATION***"]]
    ++ (if Py.lt 1 E_max && Py.le E_max 5.8
        then [[Lit "!!! Sensory Perception - tingling !!!"]] else [])
    ++ (if Py.lt 5.8 E_max && Py.le E_max 10
        then [[Lit "!!! Sensory Perception - PAINFUL !!!"]] else [])
  else [].

(** [{m:.6f}] of a column maximum; the maximum of an empty column is NaN
    in pandas, which prints as nan. *)
Definition fix6 (m : option R) : piece :=
  match m with
  | Some x => Fix 6 x
  | None => Lit "nan"
  end.

Definition summary_lines (df : DataFrame) : console :=
  [ nl_banner_line 60;
    [Lit "SUMMARY"];
    banner_line 60;
    [Lit "Maximum dB/dt: "; fix6 (column_max dB_dt df); Lit " T/s"];
    [Lit "Maximum induced voltage: ";
     fix6 (column_max Induced_Voltage df); Lit " V"];
    [Lit "Maximum E-field: ";
     fix6 (column_max Max_E_field df); Lit " V/m"];
    [Lit "Maximum current density: ";
     fix6 (column_max Max_Current_Density df); Lit " A/m²"];
    banner_line 60 ].

(** [run_simulation] with its local constant [NUM_STEPS] as a parameter.
    [max_dB_dt / NUM_STEPS] raises when [NUM_STEPS] is 0; reading [E_max]
    after a loop that never ran would raise [NameError]. *)
Definition run_simulation_with (NUM_STEPS : nat) (max_dB_dt B_max : R)
  : Py.result (DataFrame * console) :=
  if Nat.eqb NUM_STEPS 0 then Py.Raise Py.ZeroDivisionError else
  let out := parameter_lines NUM_STEPS max_dB_dt B_max in
  let dB_dt_increment := max_dB_dt / INR NUM_STEPS in
  let st := sweep_loop NUM_STEPS dB_dt_increment in
  let df := results st in
  let out := out ++ high_field_lines B_max in
  match E_max st with
  | None => Py.Raise Py.NameError
  | Some E_max =>
      let out := out ++ bioeffect_lines E_max in
      let out := out ++ summary_lines df in
      Py.Ok (df, out)
  end.

Definition NUM_STEPS : nat := 1000.

Definition run_simulation (max_dB_dt B_max : R)
  : Py.result (DataFrame * console) :=
  run_simulation_with NUM_STEPS max_dB_dt B_max.

(** *** save_to_csv: the file written and what is printed. *)

Record csv_file : Type := {
  file_name : line;
  file_rows : DataFrame
}.

Definition csv_filename (max_dB_dt B_max : R) : line :=
  [Lit "mri_results_dBdt_"; Val max_dB_dt; Lit "Ts_Bmax_"; Val B_max; Lit "T.csv"].

Definition save_to_csv (df : DataFrame) (max_dB_dt B_max : R)
  : csv_file * console :=
  let filename := csv_filename max_dB_dt B_max in
  ({| file_name := filename; file_rows := df |},
   [ Lit (nl ++ "✓ Results saved to: ") :: filename;
     [Lit "✓ Total data points: "; Int (Z.of_nat (List.length df))] ]
   ++ summary_lines df).

Record run : Type := {
  run_table : DataFrame;
  run_file : csv_file;
  run_console : console
}.

Definition main (keys : list entry) : Py.result run :=
  inp <- get_user_input keys ;;
  sim <- run_simulation (in_max_dB_dt inp) (in_B_max inp) ;;
  let '(df, out) := sim in
  let '(file, out') := save_to_csv df (in_max_dB_dt inp) (in_B_max inp) in
  Py.Ok {| run_table := df;
           run_file := file;
           run_console := in_out inp ++ out ++ out'
             ++ [Lit (nl ++ "Simulation complete! Check ") :: file_name file
                 ++ [Lit " for detailed results."]] |}.

End IO.

(** ** internal_voltage.py *)

Module Batch.

Definition B_MAX : R := 7.
Definition B_ROC_INCREMENT : R := 0.05.
Definition NUM_STEPS : nat := 100.

Definition head_a : R := 0.09.
Definition head_b : R := 0.09.
Definition head_c : R := 0.065.

Definition calculate_induced_voltage (dB_dt a b c : R) : R :=
  let A_max := PI * a * c in
  let V_induced := Py.abs dB_dt * A_max in
  V_induced.

Definition calculate_max_electric_field (dB_dt a c : R) : R :=
  let r_max := Py.max a c in
  let E_max := (r_max / 2) * Py.abs dB_dt in
  E_max.

(** The dicts of this variant have no 'Step' key. *)
Record row : Type := {
  dB_dt : R;
  Induced_Voltage : R;
  Max_E_field : R;
  Max_Current_Density : R;
  Power_Density : R
}.

Definition DataFrame : Type := list row.

Definition loop_body (B_ROC_INCREMENT : R) (results : list row) (i : nat)
  : list row :=
  let B_ROC := INR i * B_ROC_INCREMENT in
  let V_INT := calculate_induced_voltage B_ROC head_a head_b head_c in
  let E_max := calculate_max_electric_field B_ROC head_a head_c in
  let sigma_brain := 0.33 in
  let J_max := sigma_brain * E_max in
  results ++
    [ {| dB_dt := B_ROC;
         Induced_Voltage := V_INT;
         Max_E_field := E_max;
         Max_Current_Density := J_max;
         Power_Density := sigma_brain * E_max ^ 2 |} ].

(** The table [main] builds and returns, with the module constants
    [NUM_STEPS] and [B_ROC_INCREMENT] as parameters.  The report printed
    from the table and the optional CSV export read [df] and leave it as
    it is; they are not part of this model. *)
Definition main_with (NUM_STEPS : nat) (B_ROC_INCREMENT : R) : DataFrame :=
  fold_left (loop_body B_ROC_INCREMENT) (seq 0 (NUM_STEPS + 1)) [].

Definition main : DataFrame := main_with NUM_STEPS B_ROC_INCREMENT.

(** *** What [main] prints and saves *)

(** A printed item: a line of text, or a frame rendered by
    [to_string(index=False)], kept as the rows it shows. *)
Inductive item : Type :=
| Text (l : line)
| Frame (rows : list row).

(** [df.head(n)], [df.tail(n)] and [df.iloc[start:stop]] *)
Definition head (n : nat) (df : DataFrame) : DataFrame := firstn n df.
Definition tail (n : nat) (df : DataFrame) : DataFrame :=
  skipn (List.length df - n) df.
Definition iloc (df : DataFrame) (start stop : Z) : DataFrame :=
  Py.slice df start stop.

(** [df[col].max()] *)
Definition column_max (col : row -> R) (df : DataFrame) : option R :=
  match df with
  | [] => None
  | r :: rest => Some (fold_left (fun m r' => Rmax m (col r')) rest (col r))
  end.

(** [{m:.<digits>f}] of a column maximum; NaN for an empty column. *)
Definition fix_max (digits : nat) (m : option R) : piece :=
  match m with
  | Some x => Fix digits x
  | None => Lit "nan"
  end.

Definition rule80 : item := Text [Lit (str_mul "=" 80)].
Definition nl_rule80 : item := Text [Lit (nl ++ str_mul "=" 80)].

(** Lines 51-64: printed before the loop. *)
Definition header_items (NUM_STEPS : nat) (B_ROC_INCREMENT : R) : list item :=
  [ rule80;
    Text [Lit "MRI INDUCED VOLTAGE CALCULATOR"];
    rule80;
    Text [Lit (nl ++ "Ellipsoid Parameters:")];
    Text [Lit "  Semi-axis a (lateral): "; Fix 1 (head_a * 100); Lit " cm"];
    Text [Lit "  Semi-axis b (anterior-posterior): "; Fix 1 (head_b * 100);
          Lit " cm"];
    Text [Lit "  Semi-axis c (superior-inferior): "; Fix 1 (head_c * 100);
          Lit " cm"];
    Text [Lit "  Maximum cross-sectional area: ";
          Fix 2 (PI * head_a * head_c * 10000); Lit " cm²"];
    Text [Lit (nl ++ "Magnetic Field Parameters:")];
    Text [Lit "  B field orientation: Parallel to y-axis (patient lying down)"];
    Text [Lit "  Maximum field strength (B_MAX): "; Int 7; Lit " T"];
    Text [Lit "  Rate of change increment: "; Val B_ROC_INCREMENT; Lit " T/s"];
    Text [Lit "  Number of test points: "; Int (Z.of_nat NUM_STEPS)];
    rule80 ].

(** [mid_start = NUM_STEPS//2 - 5] *)
Definition mid_start (NUM_STEPS : nat) : Z := (Z.of_nat (NUM_STEPS / 2) - 5)%Z.

(** Lines 94-109: the three windows of the table. *)
Definition window_items (NUM_STEPS : nat) (B_ROC_INCREMENT : R) (df : DataFrame)
  : list item :=
  [ nl_rule80;
    Text [Lit "RESULTS - First 10 values:"];
    rule80;
    Frame (head 10 df);
    nl_rule80;
    Text [Lit "RESULTS - Middle 10 values (around ";
          Fix 3 (INR (NUM_STEPS / 2) * B_ROC_INCREMENT); Lit " T/s):"];
    rule80;
    Frame (iloc df (mid_start NUM_STEPS) (mid_start NUM_STEPS + 10));
    nl_rule80;
    Text [Lit "RESULTS - Last 10 values:"];
    rule80;
    Frame (tail 10 df) ].

(** Lines 111-118: summary statistics. *)
Definition summary_items (df : DataFrame) : list item :=
  [ nl_rule80;
    Text [Lit "SUMMARY STATISTICS:"];
    rule80;
    Text [Lit "Maximum dB/dt tested: "; fix_max 3 (column_max dB_dt df);
          Lit " T/s"];
    Text [Lit "Maximum induced voltage: ";
          fix_max 6 (column_max Induced_Voltage df); Lit " V"];
    Text [Lit "Maximum E-field: "; fix_max 6 (column_max Max_E_field df);
          Lit " V/m"];
    Text [Lit "Maximum current density: ";
          fix_max 6 (column_max Max_Current_Density df); Lit " A/m²"] ].

(** Lines 120-127: safety context. *)
Definition safety_items : list item :=
  [ nl_rule80;
    Text [Lit "SAFETY CONTEXT:"];
    rule80;
    Text [Lit "Typical MRI gradient slew rates: 20-200 T/m/s"];
    Text [Lit "Peripheral nerve stimulation threshold: ~20-80 V/m (depends on pulse duration)"];
    Text [Lit "FDA limit for dB/dt: Varies by pulse duration and location"];
    rule80 ].

Definition save_prompt : item :=
  Text [Lit (nl ++ "Would you like to save the complete results to CSV? (yes/no): ")].

Definition csv_name : string := "mri_induced_voltage_results.csv".

Record csv_file : Type := {
  file_name : string;
  file_rows : DataFrame
}.

Record run : Type := {
  run_table : DataFrame;          (* the value returned *)
  run_file : option csv_file;     (* the file written, if any *)
  run_console : list item
}.

(** [main] with what is typed at the save prompt; [None] is an exhausted
    keyboard.  The module constants are parameters, as in [main_with]. *)
Definition main_io_with (NUM_STEPS : nat) (B_ROC_INCREMENT : R)
  (answer : option string) : Py.result run :=
  let out := header_items NUM_STEPS B_ROC_INCREMENT in
  let df := main_with NUM_STEPS B_ROC_INCREMENT in
  let out := out ++ window_items NUM_STEPS B_ROC_INCREMENT df in
  let out := out ++ summary_items df in
  let out := out ++ safety_items in
  let out := out ++ [save_prompt] in
  match answer with
  | None => Py.Raise Py.EOFError
  | Some save_option =>
      if Py.str_in (Py.lower save_option) ["yes"%string; "y"%string]
      then
        let filename := csv_name in
        Py.Ok {| run_table := df;
                 run_file := Some {| file_name := filename; file_rows := df |};
                 run_console := out ++ [Text [Lit "Results saved to "; Lit filename]] |}
      else
        Py.Ok {| run_table := df; run_file := None; run_console := out |}
  end.

Definition main_io (answer : option string) : Py.result run :=
  main_io_with NUM_STEPS B_ROC_INCREMENT answer.

End Batch.

(** ** Reading the tables *)

(** The row the loop body of [IO.run_simulation] appends at step [i]. *)
Definition io_row_at (dB_dt_increment : R) (i : nat) : IO.row :=
  let B_ROC := INR i * dB_dt_increment in
  let E_max := IO.calculate_max_electric_field B_ROC IO.head_a IO.head_c in
  {| IO.Step := Z.of_nat i;
     IO.dB_dt := B_ROC;
     IO.Induced_Voltage :=
       IO.calculate_induced_voltage B_ROC IO.head_a IO.head_b IO.head_c;
     IO.Max_E_field := E_max;
     IO.Max_Current_Density := 0.33 * E_max;
     IO.Power_Density := 0.33 * E_max ^ 2 |}.

(** The row the loop body of [Batch.main] appends at step [i]. *)
Definition batch_row_at (B_ROC_INCREMENT : R) (i : nat) : Batch.row :=
  let B_ROC := INR i * B_ROC_INCREMENT in
  let E_max := Batch.calculate_max_electric_field B_ROC Batch.head_a Batch.head_c in
  {| Batch.dB_dt := B_ROC;
     Batch.Induced_Voltage :=
       Batch.calculate_induced_voltage B_ROC Batch.head_a Batch.head_b Batch.head_c;
     Batch.Max_E_field := E_max;
     Batch.Max_Current_Density := 0.33 * E_max;
     Batch.Power_Density := 0.33 * E_max ^ 2 |}.

(** A dB/dt column of [N + 1] values that climbs from 0 to [max_dB_dt] in
    equal steps of [max_dB_dt / N]. *)
Definition arithmetic_sweep (N : nat) (max_dB_dt : R) (col : list R) : Prop :=
  List.length col = (N + 1)%nat /\
  col = map (fun i => INR i * (max_dB_dt / INR N)) (seq 0 (N + 1)) /\
  nth 0 col 0 = 0 /\
  nth N col 0 = max_dB_dt /\
  (forall i j, (i < j <= N)%nat -> nth i col 0 < nth j col 0).

(** Every field of an [IO] row is non-negative. *)
Definition io_row_nonneg (r : IO.row) : Prop :=
  (0 <= IO.Step r)%Z /\
  0 <= IO.dB_dt r /\
  0 <= IO.Induced_Voltage r /\
  0 <= IO.Max_E_field r /\
  0 <= IO.Max_Current_Density r /\
  0 <= IO.Power_Density r.

(** The derived columns of an [IO] row, from its E-field. *)
Definition io_row_derived (r : IO.row) : Prop :=
  IO.Max_Current_Density r = 0.33 * IO.Max_E_field r /\
  IO.Power_Density r = IO.Max_Current_Density r * IO.Max_E_field r.

(** The derived columns of a [Batch] row, from its E-field. *)
Definition batch_row_derived (r : Batch.row) : Prop :=
  Batch.Max_Current_Density r = 0.33 * Batch.Max_E_field r /\
  Batch.Power_Density r = Batch.Max_Current_Density r * Batch.Max_E_field r.

(** A typed entry that [get_user_input] does not accept: a number that is
    not positive, or text that is not a number. *)
Definition rejected (e : IO.entry) : Prop :=
  match e with
  | IO.Parsed x => x <= 0
  | IO.Malformed => True
  end.

(** Every field of a [Batch] row is non-negative. *)
Definition batch_row_nonneg (r : Batch.row) : Prop :=
  0 <= Batch.dB_dt r /\
  0 <= Batch.Induced_Voltage r /\
  0 <= Batch.Max_E_field r /\
  0 <= Batch.Max_Current_Density r /\
  0 <= Batch.Power_Density r.

(** An [IO] row without its 'Step' column, as a [Batch] row. *)
Definition drop_step (r : IO.row) : Batch.row :=
  {| Batch.dB_dt := IO.dB_dt r;
     Batch.Induced_Voltage := IO.Induced_Voltage r;
     Batch.Max_E_field := IO.Max_E_field r;
     Batch.Max_Current_Density := IO.Max_Current_Density r;
     Batch.Power_Density := IO.Power_Density r |}.

(** What the first loop of [get_user_input] prints for a rejected entry. *)
Definition reply_dB_dt (e : IO.entry) : console :=
  match e with
  | IO.Parsed _ => [IO.prompt_dB_dt; IO.err_dB_dt]
  | IO.Malformed => [IO.prompt_dB_dt; IO.err_number]
  end.

(** What the second loop of [get_user_input] prints for a rejected entry. *)
Definition reply_B_max (e : IO.entry) : console :=
  match e with
  | IO.Parsed _ => [IO.prompt_B_max; IO.err_B_max]
  | IO.Malformed => [IO.prompt_B_max; IO.err_number]
  end.

(** The title printed by [get_user_input] before the first prompt. *)
Definition input_title : console :=
  [IO.banner_line 60;
   [Lit "MRI INDUCED VOLTAGE CALCULATOR - I/O SCRIPT"];
   IO.banner_line 60].

(** ** Comparisons and builtins agree with the real-number operations *)

Section PyFacts.

Lemma le_true (x y : R) : Py.le x y = true <-> x <= y.
Proof. unfold Py.le; destruct (Rle_dec x y); split; intros; try easy. Qed.

Lemma le_false (x y : R) : Py.le x y = false <-> y < x.
Proof.
  unfold Py.le; destruct (Rle_dec x y); split; intros; try easy; lra.
Qed.

Lemma lt_true (x y : R) : Py.lt x y = true <-> x < y.
Proof. unfold Py.lt; destruct (Rlt_dec x y); split; intros; try easy. Qed.

Lemma lt_false (x y : R) : Py.lt x y = false <-> y <= x.
Proof.
  unfold Py.lt; destruct (Rlt_dec x y); split; intros; try easy; lra.
Qed.

Lemma eq_true (x y : R) : Py.eq x y = true <-> x = y.
Proof. unfold Py.eq; destruct (Req_dec_T x y); split; intros; try easy. Qed.

Lemma max_Rmax (a c : R) : Py.max a c = Rmax a c.
Proof.
  unfold Py.max, Py.lt, Rmax.
  destruct (Rlt_dec a c), (Rle_dec a c); try reflexivity; lra.
Qed.

Lemma abs_Rabs (x : R) : Py.abs x = Rabs x.
Proof.
  unfold Py.abs, Py.lt, Rabs.
  destruct (Rlt_dec x 0), (Rcase_abs x); try reflexivity; lra.
Qed.

Lemma abs_nonneg (x : R) : 0 <= Py.abs x.
Proof. rewrite abs_Rabs; apply Rabs_pos. Qed.

Lemma abs_of_nonneg (x : R) : 0 <= x -> Py.abs x = x.
Proof. intros H; rewrite abs_Rabs; apply Rabs_pos_eq; exact H. Qed.

Lemma abs_double (x : R) : Py.abs (2 * x) = 2 * Py.abs x.
Proof.
  rewrite !abs_Rabs, Rabs_mult, (Rabs_pos_eq 2); [reflexivity | lra].
Qed.

End PyFacts.

(** ** The loops as maps over [range(NUM_STEPS + 1)] *)

Section Loops.

Variable inc : R.

Lemma io_fold_results (l : list nat) (st : IO.loop_state) :
  IO.results (fold_left (IO.loop_body inc) l st)
  = IO.results st ++ map (io_row_at inc) l.
Proof.
  revert st; induction l as [|i l IH]; intros st; simpl.
  - now rewrite app_nil_r.
  - rewrite IH; simpl; now rewrite <- app_assoc.
Qed.

Lemma io_fold_E_max (l : list nat) (st : IO.loop_state) :
  IO.E_max (fold_left (IO.loop_body inc) l st)
  = match rev l with
    | [] => IO.E_max st
    | i :: _ => Some (IO.Max_E_field (io_row_at inc i))
    end.
Proof.
  revert st; induction l as [|i l IH]; intros st; simpl; [reflexivity|].
  rewrite IH; simpl.
  destruct (rev l) as [|j t]; reflexivity.
Qed.

Lemma io_sweep_results (N : nat) :
  IO.results (IO.sweep_loop N inc) = map (io_row_at inc) (seq 0 (N + 1)).
Proof. unfold IO.sweep_loop; now rewrite io_fold_results. Qed.

Lemma io_sweep_E_max (N : nat) :
  IO.E_max (IO.sweep_loop N inc) = Some (IO.Max_E_field (io_row_at inc N)).
Proof.
  unfold IO.sweep_loop; rewrite io_fold_E_max.
  rewrite Nat.add_1_r, seq_S, rev_app_distr; reflexivity.
Qed.

Lemma batch_fold_results (l : list nat) (acc : list Batch.row) :
  fold_left (Batch.loop_body inc) l acc = acc ++ map (batch_row_at inc) l.
Proof.
  revert acc; induction l as [|i l IH]; intros acc; simpl.
  - now rewrite app_nil_r.
  - rewrite IH; unfold Batch.loop_body; simpl; now rewrite <- app_assoc.
Qed.

Lemma batch_main_rows (N : nat) :
  Batch.main_with N inc = map (batch_row_at inc) (seq 0 (N + 1)).
Proof. unfold Batch.main_with; now rewrite batch_fold_results. Qed.

End Loops.

(** [run_simulation] always returns: the table is the mapped range and the
    console is fixed by the last step's E-field. *)
Lemma run_simulation_with_ok (N : nat) (max_dB_dt B_max : R) :
  (1 <= N)%nat ->
  IO.run_simulation_with N max_dB_dt B_max
  = Py.Ok (map (io_row_at (max_dB_dt / INR N)) (seq 0 (N + 1)),
           IO.parameter_lines N max_dB_dt B_max
             ++ IO.high_field_lines B_max
             ++ IO.bioeffect_lines
                  (IO.Max_E_field (io_row_at (max_dB_dt / INR N) N))
             ++ IO.summary_lines
                  (map (io_row_at (max_dB_dt / INR N)) (seq 0 (N + 1)))).
Proof.
  intros HN; unfold IO.run_simulation_with.
  destruct (Nat.eqb_spec N 0) as [->|_]; [lia|].
  rewrite io_sweep_E_max, io_sweep_results.
  now rewrite <- !app_assoc.
Qed.

(** ** Columns of a mapped range *)

Section Columns.

Lemma nth_map_seq (f : nat -> R) (n i : nat) :
  (i < n)%nat -> nth i (map f (seq 0 n)) 0 = f i.
Proof.
  intros Hi.
  rewrite (nth_indep _ 0 (f 0%nat)) by now rewrite length_map, length_seq.
  rewrite map_nth, seq_nth by exact Hi.
  reflexivity.
Qed.

Lemma nth_error_map_seq {A : Type} (f : nat -> A) (n i : nat) (x : A) :
  nth_error (map f (seq 0 n)) i = Some x -> (i < n)%nat /\ x = f i.
Proof.
  intros H.
  assert (Hi : (i < n)%nat).
  { assert (Hs : nth_error (map f (seq 0 n)) i <> None) by congruence.
    apply nth_error_Some in Hs.
    now rewrite length_map, length_seq in Hs. }
  split; [exact Hi|].
  rewrite nth_error_map, nth_error_seq in H.
  destruct (Nat.ltb_spec i n); [|lia].
  simpl in H; congruence.
Qed.

Lemma arithmetic_sweep_range (N : nat) (max_dB_dt : R) :
  (1 <= N)%nat -> 0 < max_dB_dt ->
  arithmetic_sweep N max_dB_dt
    (map (fun i => INR i * (max_dB_dt / INR N)) (seq 0 (N + 1))).
Proof.
  intros HN Hmax.
  assert (HNR : 0 < INR N) by (apply lt_0_INR; lia).
  assert (Hinc : 0 < max_dB_dt / INR N) by (apply Rdiv_lt_0_compat; assumption).
  unfold arithmetic_sweep; repeat split.
  - now rewrite length_map, length_seq.
  - rewrite nth_map_seq by lia. simpl; lra.
  - rewrite nth_map_seq by lia. field; lra.
  - intros i j Hij.
    rewrite !nth_map_seq by lia.
    apply Rmult_lt_compat_r; [exact Hinc|].
    apply lt_INR; lia.
Qed.

End Columns.

(** ** The closed-form quantities *)

(** C2: for a rate of change of either sign and positive semi-axes,
    [calculate_induced_voltage] is |dB_dt| * pi * a * c in both scripts; it
    is never negative and its value is the same for any two values of [b]. *)
Theorem calculate_induced_voltage_formula :
  forall dB_dt a b c : R,
    0 < a -> 0 < b -> 0 < c ->
    IO.calculate_induced_voltage dB_dt a b c = Rabs dB_dt * PI * a * c /\
    Batch.calculate_induced_voltage dB_dt a b c = Rabs dB_dt * PI * a * c /\
    0 <= IO.calculate_induced_voltage dB_dt a b c /\
    0 <= Batch.calculate_induced_voltage dB_dt a b c /\
    (forall b1 b2 : R,
        IO.calculate_induced_voltage dB_dt a b1 c
        = IO.calculate_induced_voltage dB_dt a b2 c) /\
    (forall b1 b2 : R,
        Batch.calculate_induced_voltage dB_dt a b1 c
        = Batch.calculate_induced_voltage dB_dt a b2 c).
Proof.
  intros dB_dt a b c Ha Hb Hc.
  unfold IO.calculate_induced_voltage, Batch.calculate_induced_voltage.
  rewrite abs_Rabs.
  assert (HA : 0 < PI * a * c).
  { pose proof PI_RGT_0 as Hpi.
    apply Rmult_lt_0_compat; [apply Rmult_lt_0_compat|]; assumption. }
  pose proof (Rabs_pos dB_dt) as Habs.
  repeat split; try ring; try reflexivity;
    apply Rmult_le_pos; lra.
Qed.

Lemma calculate_induced_voltage_formula_witness :
  (0 < 0.09 /\ 0 < 0.09 /\ 0 < 0.065) /\
  IO.calculate_induced_voltage (-5) 0.09 0.09 0.065
  = Rabs (-5) * PI * 0.09 * 0.065.
Proof.
  split; [lra|].
  apply (calculate_induced_voltage_formula (-5) 0.09 0.09 0.065); lra.
Defined.

(** C3: for a rate of change of either sign and positive [a], [c],
    [calculate_max_electric_field] is (max(a, c) / 2) * |dB_dt| in both
    scripts, and it is 0 at dB_dt = 0. *)
Theorem calculate_max_electric_field_formula :
  forall dB_dt a c : R,
    0 < a -> 0 < c ->
    IO.calculate_max_electric_field dB_dt a c = (Rmax a c / 2) * Rabs dB_dt /\
    Batch.calculate_max_electric_field dB_dt a c = (Rmax a c / 2) * Rabs dB_dt /\
    IO.calculate_max_electric_field 0 a c = 0 /\
    Batch.calculate_max_electric_field 0 a c = 0.
Proof.
  intros dB_dt a c _ _.
  unfold IO.calculate_max_electric_field, Batch.calculate_max_electric_field.
  rewrite !abs_Rabs, max_Rmax, Rabs_R0.
  repeat split; ring.
Qed.

Lemma calculate_max_electric_field_formula_witness :
  (0 < 0.09 /\ 0 < 0.065) /\
  IO.calculate_max_electric_field (-5) 0.09 0.065
  = (Rmax 0.09 0.065 / 2) * Rabs (-5).
Proof.
  split; [lra|].
  apply (calculate_max_electric_field_formula (-5) 0.09 0.065); lra.
Defined.

(** ** The sweep *)

(** C1: with [NUM_STEPS] = N >= 1 and max_dB_dt > 0, [run_simulation]
    returns a table of exactly N + 1 rows whose dB/dt column is
    i * (max_dB_dt / N) at row i: it starts at 0, ends at max_dB_dt and is
    strictly increasing.  The loop of the batch script gives the same
    column for the increment max_dB_dt / N, and its own run (100 steps of
    0.05) sweeps from 0 to 5. *)
Theorem sweep_arithmetic_progression :
  forall (N : nat) (max_dB_dt B_max : R),
    (1 <= N)%nat -> 0 < max_dB_dt ->
    (exists df out,
        IO.run_simulation_with N max_dB_dt B_max = Py.Ok (df, out) /\
        List.length df = (N + 1)%nat /\
        arithmetic_sweep N max_dB_dt (map IO.dB_dt df)) /\
    (List.length (Batch.main_with N (max_dB_dt / INR N)) = (N + 1)%nat /\
     arithmetic_sweep N max_dB_dt
       (map Batch.dB_dt (Batch.main_with N (max_dB_dt / INR N)))) /\
    (List.length Batch.main = 101%nat /\
     arithmetic_sweep 100 5 (map Batch.dB_dt Batch.main)).
Proof.
  intros N max_dB_dt B_max HN Hmax.
  split; [|split].
  - eexists; eexists; split; [apply run_simulation_with_ok; exact HN|].
    split; [now rewrite length_map, length_seq|].
    rewrite map_map; simpl.
    apply arithmetic_sweep_range; assumption.
  - rewrite batch_main_rows.
    split; [now rewrite length_map, length_seq|].
    rewrite map_map; simpl.
    apply arithmetic_sweep_range; assumption.
  - unfold Batch.main; rewrite batch_main_rows.
    split; [now rewrite length_map, length_seq|].
    rewrite map_map; simpl Batch.dB_dt.
    replace Batch.B_ROC_INCREMENT with (5 / INR Batch.NUM_STEPS).
    + apply arithmetic_sweep_range; [unfold Batch.NUM_STEPS; lia | lra].
    + unfold Batch.B_ROC_INCREMENT, Batch.NUM_STEPS.
      rewrite (INR_IZR_INZ 100); simpl; lra.
Qed.

Lemma sweep_arithmetic_progression_witness :
  ((1 <= 1000)%nat /\ 0 < 5) /\
  exists df out,
    IO.run_simulation 5 7 = Py.Ok (df, out) /\
    List.length df = 1001%nat /\
    arithmetic_sweep 1000 5 (map IO.dB_dt df).
Proof.
  split; [split; [lia | lra]|].
  apply (sweep_arithmetic_progression 1000 5 7); [lia | lra].
Defined.

(** ** Bioeffect classification *)

Section Bioeffect.

Ltac cmp_true := first [apply le_true | apply lt_true]; lra.
Ltac cmp_false := first [apply le_false | apply lt_false]; lra.

Lemma bioeffect_subtle (E_max : R) :
  0.1 <= E_max <= 1 ->
  IO.bioeffect_lines E_max = [[Lit "Subtle Neuromodulation"]].
Proof.
  intros [H1 H2]; unfold IO.bioeffect_lines.
  replace (Py.le 0.1 E_max) with true by (symmetry; cmp_true).
  replace (Py.le E_max 1) with true by (symmetry; cmp_true).
  reflexivity.
Qed.

Lemma bioeffect_tingling (E_max : R) :
  1 < E_max <= 5.8 ->
  IO.bioeffect_lines E_max
  = [[Lit "***PERIPHERAL NERVE STIMULATION***"];
     [Lit "!!! Sensory Perception - tingling !!!"]].
Proof.
  intros [H1 H2]; unfold IO.bioeffect_lines.
  replace (Py.le E_max 1) with false by (symmetry; cmp_false).
  replace (Py.lt 1 E_max) with true by (symmetry; cmp_true).
  replace (Py.le E_max 10) with true by (symmetry; cmp_true).
  replace (Py.le E_max 5.8) with true by (symmetry; cmp_true).
  replace (Py.lt 5.8 E_max) with false by (symmetry; cmp_false).
  rewrite andb_false_r; reflexivity.
Qed.

Lemma bioeffect_painful (E_max : R) :
  5.8 < E_max <= 10 ->
  IO.bioeffect_lines E_max
  = [[Lit "***PERIPHERAL NERVE STIMULATION***"];
     [Lit "!!! Sensory Perception - PAINFUL !!!"]].
Proof.
  intros [H1 H2]; unfold IO.bioeffect_lines.
  replace (Py.le E_max 1) with false by (symmetry; cmp_false).
  replace (Py.lt 1 E_max) with true by (symmetry; cmp_true).
  replace (Py.le E_max 10) with true by (symmetry; cmp_true).
  replace (Py.le E_max 5.8) with false by (symmetry; cmp_false).
  replace (Py.lt 5.8 E_max) with true by (symmetry; cmp_true).
  rewrite andb_false_r; reflexivity.
Qed.

Lemma bioeffect_below (E_max : R) :
  E_max < 0.1 -> IO.bioeffect_lines E_max = [].
Proof.
  intros H; unfold IO.bioeffect_lines.
  replace (Py.le 0.1 E_max) with false by (symmetry; cmp_false).
  replace (Py.lt 1 E_max) with false by (symmetry; cmp_false).
  reflexivity.
Qed.

Lemma bioeffect_above (E_max : R) :
  10 < E_max -> IO.bioeffect_lines E_max = [].
Proof.
  intros H; unfold IO.bioeffect_lines.
  replace (Py.le E_max 1) with false by (symmetry; cmp_false).
  replace (Py.le E_max 10) with false by (symmetry; cmp_false).
  rewrite !andb_false_r; reflexivity.
Qed.

End Bioeffect.

(** C4, as the code has it: the lines printed for [E_max] are "Subtle
    Neuromodulation" on [0.1, 1], the peripheral-nerve-stimulation header
    with the tingling line on (1, 5.8], the header with the painful line on
    (5.8, 10], and nothing at all both below 0.1 and above 10. *)
Theorem bioeffect_lines_thresholds :
  forall E_max : R,
    (0.1 <= E_max <= 1 ->
     IO.bioeffect_lines E_max = [[Lit "Subtle Neuromodulation"]]) /\
    (1 < E_max <= 5.8 ->
     IO.bioeffect_lines E_max
     = [[Lit "***PERIPHERAL NERVE STIMULATION***"];
        [Lit "!!! Sensory Perception - tingling !!!"]]) /\
    (5.8 < E_max <= 10 ->
     IO.bioeffect_lines E_max
     = [[Lit "***PERIPHERAL NERVE STIMULATION***"];
        [Lit "!!! Sensory Perception - PAINFUL !!!"]]) /\
    (E_max < 0.1 \/ 10 < E_max -> IO.bioeffect_lines E_max = []).
Proof.
  intros E_max; repeat split.
  - apply bioeffect_subtle.
  - apply bioeffect_tingling.
  - apply bioeffect_painful.
  - intros [H|H]; [apply bioeffect_below | apply bioeffect_above]; exact H.
Qed.

Lemma bioeffect_lines_thresholds_witness :
  IO.bioeffect_lines 0.1 = [[Lit "Subtle Neuromodulation"]] /\
  IO.bioeffect_lines 1 = [[Lit "Subtle Neuromodulation"]] /\
  IO.bioeffect_lines 5.8
  = [[Lit "***PERIPHERAL NERVE STIMULATION***"];
     [Lit "!!! Sensory Perception - tingling !!!"]] /\
  IO.bioeffect_lines 10
  = [[Lit "***PERIPHERAL NERVE STIMULATION***"];
     [Lit "!!! Sensory Perception - PAINFUL !!!"]] /\
  IO.bioeffect_lines 0.05 = [] /\
  IO.bioeffect_lines 11 = [].
Proof.
  repeat split.
  - apply (bioeffect_lines_thresholds 0.1); lra.
  - apply (bioeffect_lines_thresholds 1); lra.
  - apply (bioeffect_lines_thresholds 5.8); lra.
  - apply (bioeffect_lines_thresholds 10); lra.
  - apply (bioeffect_lines_thresholds 0.05); lra.
  - apply (bioeffect_lines_thresholds 11); lra.
Defined.

(** C4, as the claim has it, fails: nothing is printed at 0.05 and nothing
    at 11, so no reading of the output can give "None" for the first and
    "Unclassified" for the second. *)
Lemma bioeffect_no_unclassified_label :
  IO.bioeffect_lines 0.05 = [] /\
  IO.bioeffect_lines 11 = [] /\
  ~ (exists label : console -> string,
        label (IO.bioeffect_lines 0.05) = "None"%string /\
        label (IO.bioeffect_lines 11) = "Unclassified"%string).
Proof.
  assert (H1 : IO.bioeffect_lines 0.05 = []) by (apply bioeffect_below; lra).
  assert (H2 : IO.bioeffect_lines 11 = []) by (apply bioeffect_above; lra).
  repeat split; try assumption.
  intros [label [Ha Hb]].
  rewrite H1 in Ha; rewrite H2 in Hb.
  rewrite Ha in Hb; discriminate Hb.
Qed.

(** ** The E-field column *)

Section EField.

Variable inc : R.

Lemma io_E_field_at (i : nat) :
  IO.Max_E_field (io_row_at inc i) = 0.045 * (INR i * Rabs inc).
Proof.
  simpl; unfold IO.calculate_max_electric_field, IO.head_a, IO.head_c.
  rewrite abs_Rabs, max_Rmax, Rabs_mult, (Rabs_pos_eq (INR i)) by apply pos_INR.
  rewrite Rmax_left by lra.
  lra.
Qed.

Lemma io_E_field_nonneg (i : nat) : 0 <= IO.Max_E_field (io_row_at inc i).
Proof.
  rewrite io_E_field_at.
  pose proof (pos_INR i); pose proof (Rabs_pos inc).
  apply Rmult_le_pos; [lra | apply Rmult_le_pos; assumption].
Qed.

Lemma io_E_field_mono (i j : nat) :
  (i <= j)%nat ->
  IO.Max_E_field (io_row_at inc i) <= IO.Max_E_field (io_row_at inc j).
Proof.
  intros Hij; rewrite !io_E_field_at.
  pose proof (Rabs_pos inc) as Hinc.
  apply le_INR in Hij.
  apply Rmult_le_compat_l; [lra|].
  apply Rmult_le_compat_r; assumption.
Qed.

Lemma fold_max_map {A : Type} (col : A -> R) (f : nat -> A) (l : list nat) (x : R) :
  fold_left (fun m r => Rmax m (col r)) (map f l) x
  = fold_left (fun m i => Rmax m (col (f i))) l x.
Proof.
  revert x; induction l as [|i l IH]; intros x; simpl; [reflexivity|apply IH].
Qed.

Lemma fold_max_seq (g : nat -> R) (a n : nat) :
  (forall i j, (i <= j)%nat -> g i <= g j) ->
  fold_left (fun m i => Rmax m (g i)) (seq (S a) n) (g a) = g (a + n)%nat.
Proof.
  intros Hg; revert a; induction n as [|n IH]; intros a; simpl.
  - now rewrite Nat.add_0_r.
  - rewrite Rmax_right by (apply Hg; lia).
    rewrite IH; f_equal; lia.
Qed.

(** The maximum of the E-field column is its last entry. *)
Lemma io_column_max_E_field (N : nat) :
  IO.column_max IO.Max_E_field (map (io_row_at inc) (seq 0 (N + 1)))
  = Some (IO.Max_E_field (io_row_at inc N)).
Proof.
  rewrite Nat.add_1_r; cbn [seq map IO.column_max].
  rewrite fold_max_map.
  rewrite (fold_max_seq (fun i => IO.Max_E_field (io_row_at inc i)) 0 N).
  - reflexivity.
  - intros i j; apply io_E_field_mono.
Qed.

End EField.

(** C7: after the loop the variable [E_max] holds the value of the last
    iteration, step N, and this is the value whose classification
    [run_simulation] prints.  The E-field column never decreases, so that
    value is the maximum of the column, and classifying the column maximum
    prints the same lines. *)
Theorem classification_uses_last_step_which_is_max :
  forall (N : nat) (max_dB_dt B_max : R),
    (1 <= N)%nat -> 0 < max_dB_dt ->
    exists df out e,
      IO.run_simulation_with N max_dB_dt B_max = Py.Ok (df, out) /\
      IO.E_max (IO.sweep_loop N (max_dB_dt / INR N)) = Some e /\
      option_map IO.Max_E_field (nth_error df N) = Some e /\
      out = IO.parameter_lines N max_dB_dt B_max
              ++ IO.high_field_lines B_max
              ++ IO.bioeffect_lines e
              ++ IO.summary_lines df /\
      (forall i j ri rj,
          (i <= j)%nat ->
          nth_error df i = Some ri -> nth_error df j = Some rj ->
          IO.Max_E_field ri <= IO.Max_E_field rj) /\
      IO.column_max IO.Max_E_field df = Some e /\
      (forall m, IO.column_max IO.Max_E_field df = Some m ->
                 IO.bioeffect_lines m = IO.bioeffect_lines e).
Proof.
  intros N max_dB_dt B_max HN _.
  set (inc := max_dB_dt / INR N).
  exists (map (io_row_at inc) (seq 0 (N + 1))).
  eexists; exists (IO.Max_E_field (io_row_at inc N)).
  split; [apply run_simulation_with_ok; exact HN|].
  split; [apply io_sweep_E_max|].
  split.
  { rewrite nth_error_map, nth_error_seq.
    destruct (Nat.ltb_spec N (N + 1)); [reflexivity | lia]. }
  split; [reflexivity|].
  split.
  { intros i j ri rj Hij Hi Hj.
    apply nth_error_map_seq in Hi; apply nth_error_map_seq in Hj.
    destruct Hi as [_ ->]; destruct Hj as [_ ->].
    apply io_E_field_mono; exact Hij. }
  split; [apply io_column_max_E_field|].
  intros m Hm; rewrite io_column_max_E_field in Hm.
  now injection Hm as <-.
Qed.

Lemma classification_uses_last_step_which_is_max_witness :
  ((1 <= 1000)%nat /\ 0 < 5) /\
  exists df out e,
    IO.run_simulation 5 7 = Py.Ok (df, out) /\
    IO.E_max (IO.sweep_loop 1000 (5 / INR 1000)) = Some e /\
    option_map IO.Max_E_field (nth_error df 1000) = Some e /\
    out = IO.parameter_lines 1000 5 7
            ++ IO.high_field_lines 7
            ++ IO.bioeffect_lines e
            ++ IO.summary_lines df /\
    (forall i j ri rj,
        (i <= j)%nat ->
        nth_error df i = Some ri -> nth_error df j = Some rj ->
        IO.Max_E_field ri <= IO.Max_E_field rj) /\
    IO.column_max IO.Max_E_field df = Some e /\
    (forall m, IO.column_max IO.Max_E_field df = Some m ->
               IO.bioeffect_lines m = IO.bioeffect_lines e).
Proof.
  split; [split; [lia | lra]|].
  apply (classification_uses_last_step_which_is_max 1000 5 7); [lia | lra].
Defined.

(** ** Independence of [B_max] *)

(** C8: for a fixed max_dB_dt > 0 and any two field strengths
    B_max1, B_max2 > 0, [run_simulation] returns the same table.  [B_max]
    reaches the console only through the parameter echo and the high-field
    caution, printed exactly when B_max = 7, and it reaches the export only
    through the file name; the rows written are the table. *)
Theorem table_independent_of_B_max :
  forall max_dB_dt B_max1 B_max2 : R,
    0 < max_dB_dt -> 0 < B_max1 -> 0 < B_max2 ->
    exists df rest out1 out2,
      IO.run_simulation max_dB_dt B_max1 = Py.Ok (df, out1) /\
      IO.run_simulation max_dB_dt B_max2 = Py.Ok (df, out2) /\
      out1 = IO.parameter_lines IO.NUM_STEPS max_dB_dt B_max1
               ++ IO.high_field_lines B_max1 ++ rest /\
      out2 = IO.parameter_lines IO.NUM_STEPS max_dB_dt B_max2
               ++ IO.high_field_lines B_max2 ++ rest /\
      (forall B_max : R,
          (B_max = 7 ->
           IO.high_field_lines B_max = [[Lit "***Caution! High Field***"]]) /\
          (B_max <> 7 -> IO.high_field_lines B_max = [])) /\
      (forall B_max : R,
          fst (IO.save_to_csv df max_dB_dt B_max)
          = {| IO.file_name :=
                 [Lit "mri_results_dBdt_"; Val max_dB_dt; Lit "Ts_Bmax_";
                  Val B_max; Lit "T.csv"];
               IO.file_rows := df |}).
Proof.
  intros max_dB_dt B1 B2 _ _ _.
  unfold IO.run_simulation.
  rewrite !run_simulation_with_ok by (unfold IO.NUM_STEPS; lia).
  eexists; eexists; eexists; eexists.
  split; [reflexivity|].
  split; [reflexivity|].
  split; [reflexivity|].
  split; [reflexivity|].
  split; [|reflexivity].
  intros B; unfold IO.high_field_lines, Py.eq.
  destruct (Req_dec_T B 7); split; intros; try reflexivity; contradiction.
Qed.

Lemma table_independent_of_B_max_witness :
  (0 < 5 /\ 0 < 3 /\ 0 < 7) /\
  exists df rest out1 out2,
    IO.run_simulation 5 3 = Py.Ok (df, out1) /\
    IO.run_simulation 5 7 = Py.Ok (df, out2) /\
    out1 = IO.parameter_lines IO.NUM_STEPS 5 3
             ++ IO.high_field_lines 3 ++ rest /\
    out2 = IO.parameter_lines IO.NUM_STEPS 5 7
             ++ IO.high_field_lines 7 ++ rest /\
    (forall B_max : R,
        (B_max = 7 ->
         IO.high_field_lines B_max = [[Lit "***Caution! High Field***"]]) /\
        (B_max <> 7 -> IO.high_field_lines B_max = [])) /\
    (forall B_max : R,
        fst (IO.save_to_csv df 5 B_max)
        = {| IO.file_name :=
               [Lit "mri_results_dBdt_"; Val 5; Lit "Ts_Bmax_";
                Val B_max; Lit "T.csv"];
             IO.file_rows := df |}).
Proof.
  split; [lra|].
  apply (table_independent_of_B_max 5 3 7); lra.
Defined.

(** ** Row invariants *)

Section Rows.

Lemma Forall_map_seq {A : Type} (P : A -> Prop) (f : nat -> A) (n : nat) :
  (forall i, (i < n)%nat -> P (f i)) -> Forall P (map f (seq 0 n)).
Proof.
  intros H; apply Forall_forall; intros x Hx.
  apply in_map_iff in Hx; destruct Hx as [i [<- Hi]].
  apply in_seq in Hi; apply H; lia.
Qed.

Lemma io_voltage_at (inc : R) (i : nat) :
  IO.Induced_Voltage (io_row_at inc i)
  = (INR i * Rabs inc) * (PI * 0.09 * 0.065).
Proof.
  simpl; unfold IO.calculate_induced_voltage, IO.head_a, IO.head_c.
  rewrite abs_Rabs, Rabs_mult, (Rabs_pos_eq (INR i)) by apply pos_INR.
  reflexivity.
Qed.

Lemma io_voltage_nonneg (inc : R) (i : nat) :
  0 <= IO.Induced_Voltage (io_row_at inc i).
Proof.
  rewrite io_voltage_at.
  pose proof (pos_INR i); pose proof (Rabs_pos inc); pose proof PI_RGT_0.
  apply Rmult_le_pos; [apply Rmult_le_pos; assumption|].
  apply Rmult_le_pos; [apply Rmult_le_pos|]; lra.
Qed.

(** The two scripts build the same numbers at each step. *)
Lemma batch_row_fields (inc : R) (i : nat) :
  Batch.dB_dt (batch_row_at inc i) = IO.dB_dt (io_row_at inc i) /\
  Batch.Induced_Voltage (batch_row_at inc i)
  = IO.Induced_Voltage (io_row_at inc i) /\
  Batch.Max_E_field (batch_row_at inc i) = IO.Max_E_field (io_row_at inc i) /\
  Batch.Max_Current_Density (batch_row_at inc i)
  = IO.Max_Current_Density (io_row_at inc i) /\
  Batch.Power_Density (batch_row_at inc i)
  = IO.Power_Density (io_row_at inc i).
Proof. repeat split; reflexivity. Qed.

End Rows.

Lemma io_row_at_nonneg (inc : R) (i : nat) :
  0 <= inc -> io_row_nonneg (io_row_at inc i).
Proof.
  intros Hinc.
  pose proof (io_E_field_nonneg inc i) as HE.
  pose proof (io_voltage_nonneg inc i) as HV.
  pose proof (pos_INR i) as Hi.
  unfold io_row_nonneg; repeat split; try assumption.
  - simpl; lia.
  - simpl; apply Rmult_le_pos; assumption.
  - change (0 <= 0.33 * IO.Max_E_field (io_row_at inc i)); lra.
  - change (0 <= 0.33 * IO.Max_E_field (io_row_at inc i) ^ 2).
    pose proof (pow2_ge_0 (IO.Max_E_field (io_row_at inc i))); lra.
Qed.

Lemma batch_row_at_nonneg (inc : R) (i : nat) :
  0 <= inc -> batch_row_nonneg (batch_row_at inc i).
Proof.
  intros Hinc.
  destruct (io_row_at_nonneg inc i Hinc) as (_ & H1 & H2 & H3 & H4 & H5).
  destruct (batch_row_fields inc i) as (E1 & E2 & E3 & E4 & E5).
  unfold batch_row_nonneg.
  rewrite E1, E2, E3, E4, E5; repeat split; assumption.
Qed.

(** C9: for max_dB_dt > 0 and N >= 1 steps, every row of the table has a
    non-negative step index, dB/dt, induced voltage, maximum E-field,
    maximum current density and power density; so has every row of the
    batch script's table. *)
Theorem rows_nonnegative :
  forall (N : nat) (max_dB_dt B_max : R),
    (1 <= N)%nat -> 0 < max_dB_dt ->
    (exists df out,
        IO.run_simulation_with N max_dB_dt B_max = Py.Ok (df, out) /\
        Forall io_row_nonneg df) /\
    Forall batch_row_nonneg (Batch.main_with N (max_dB_dt / INR N)) /\
    Forall batch_row_nonneg Batch.main.
Proof.
  intros N max_dB_dt B_max HN Hmax.
  assert (Hinc : 0 <= max_dB_dt / INR N).
  { apply Rlt_le, Rdiv_lt_0_compat; [exact Hmax | apply lt_0_INR; lia]. }
  split; [|split].
  - eexists; eexists; split; [apply run_simulation_with_ok; exact HN|].
    apply Forall_map_seq; intros i _; apply io_row_at_nonneg; exact Hinc.
  - rewrite batch_main_rows.
    apply Forall_map_seq; intros i _; apply batch_row_at_nonneg; exact Hinc.
  - unfold Batch.main; rewrite batch_main_rows.
    apply Forall_map_seq; intros i _; apply batch_row_at_nonneg.
    unfold Batch.B_ROC_INCREMENT; lra.
Qed.

Lemma rows_nonnegative_witness :
  ((1 <= 1000)%nat /\ 0 < 5) /\
  exists df out,
    IO.run_simulation 5 7 = Py.Ok (df, out) /\ Forall io_row_nonneg df.
Proof.
  split; [split; [lia | lra]|].
  apply (rows_nonnegative 1000 5 7); [lia | lra].
Defined.

(** C10: in every row of either table the current density is 0.33 times
    the maximum E-field, and the power density is the current density times
    the maximum E-field. *)
Theorem derived_columns_relations :
  forall (N : nat) (max_dB_dt B_max : R),
    (1 <= N)%nat ->
    (exists df out,
        IO.run_simulation_with N max_dB_dt B_max = Py.Ok (df, out) /\
        Forall io_row_derived df) /\
    Forall batch_row_derived (Batch.main_with N (max_dB_dt / INR N)) /\
    Forall batch_row_derived Batch.main.
Proof.
  intros N max_dB_dt B_max HN.
  split; [|split].
  - eexists; eexists; split; [apply run_simulation_with_ok; exact HN|].
    apply Forall_map_seq; intros i _; split; simpl; ring.
  - rewrite batch_main_rows.
    apply Forall_map_seq; intros i _; split; simpl; ring.
  - unfold Batch.main; rewrite batch_main_rows.
    apply Forall_map_seq; intros i _; split; simpl; ring.
Qed.

Lemma derived_columns_relations_witness :
  (1 <= 1000)%nat /\
  exists df out,
    IO.run_simulation 5 7 = Py.Ok (df, out) /\ Forall io_row_derived df.
Proof.
  split; [lia|].
  apply (derived_columns_relations 1000 5 7); lia.
Defined.

(** ** Scaling *)

Lemma io_row_at_double (inc : R) (i : nat) :
  IO.Step (io_row_at (2 * inc) i) = IO.Step (io_row_at inc i) /\
  IO.dB_dt (io_row_at (2 * inc) i) = 2 * IO.dB_dt (io_row_at inc i) /\
  IO.Induced_Voltage (io_row_at (2 * inc) i)
  = 2 * IO.Induced_Voltage (io_row_at inc i) /\
  IO.Max_E_field (io_row_at (2 * inc) i)
  = 2 * IO.Max_E_field (io_row_at inc i) /\
  IO.Max_Current_Density (io_row_at (2 * inc) i)
  = 2 * IO.Max_Current_Density (io_row_at inc i) /\
  IO.Power_Density (io_row_at (2 * inc) i)
  = 4 * IO.Power_Density (io_row_at inc i).
Proof.
  assert (HE : IO.Max_E_field (io_row_at (2 * inc) i)
               = 2 * IO.Max_E_field (io_row_at inc i)).
  { rewrite !io_E_field_at, Rabs_mult, (Rabs_pos_eq 2) by lra; ring. }
  split; [reflexivity|].
  split; [simpl; ring|].
  split.
  { rewrite !io_voltage_at, Rabs_mult, (Rabs_pos_eq 2) by lra; ring. }
  split; [exact HE|].
  split.
  - change (0.33 * IO.Max_E_field (io_row_at (2 * inc) i)
            = 2 * (0.33 * IO.Max_E_field (io_row_at inc i))).
    rewrite HE; ring.
  - change (0.33 * IO.Max_E_field (io_row_at (2 * inc) i) ^ 2
            = 4 * (0.33 * IO.Max_E_field (io_row_at inc i) ^ 2)).
    rewrite HE; ring.
Qed.

(** C6: for max_dB_dt > 0 and N >= 1 steps, the run with 2 * max_dB_dt
    has, at every step index, twice the dB/dt, twice the induced voltage
    and twice the maximum E-field of the run with max_dB_dt, and four times
    its power density. *)
Theorem doubling_max_dB_dt :
  forall (N : nat) (max_dB_dt B_max : R),
    (1 <= N)%nat -> 0 < max_dB_dt ->
    exists df out df2 out2,
      IO.run_simulation_with N max_dB_dt B_max = Py.Ok (df, out) /\
      IO.run_simulation_with N (2 * max_dB_dt) B_max = Py.Ok (df2, out2) /\
      List.length df = (N + 1)%nat /\
      List.length df2 = (N + 1)%nat /\
      (forall i r r2,
          nth_error df i = Some r -> nth_error df2 i = Some r2 ->
          IO.Step r2 = IO.Step r /\
          IO.dB_dt r2 = 2 * IO.dB_dt r /\
          IO.Induced_Voltage r2 = 2 * IO.Induced_Voltage r /\
          IO.Max_E_field r2 = 2 * IO.Max_E_field r /\
          IO.Power_Density r2 = 4 * IO.Power_Density r).
Proof.
  intros N max_dB_dt B_max HN Hmax.
  assert (HNR : INR N <> 0) by (apply not_0_INR; lia).
  eexists; eexists; eexists; eexists.
  split; [apply run_simulation_with_ok; exact HN|].
  split; [apply run_simulation_with_ok; exact HN|].
  split; [now rewrite length_map, length_seq|].
  split; [now rewrite length_map, length_seq|].
  intros i r r2 Hr Hr2.
  apply nth_error_map_seq in Hr; apply nth_error_map_seq in Hr2.
  destruct Hr as [_ ->]; destruct Hr2 as [_ ->].
  replace (2 * max_dB_dt / INR N) with (2 * (max_dB_dt / INR N))
    by (field; exact HNR).
  destruct (io_row_at_double (max_dB_dt / INR N) i)
    as (H0 & H1 & H2 & H3 & _ & H5).
  repeat split; assumption.
Qed.

Lemma doubling_max_dB_dt_witness :
  ((1 <= 1000)%nat /\ 0 < 5) /\
  exists df out df2 out2,
    IO.run_simulation 5 7 = Py.Ok (df, out) /\
    IO.run_simulation (2 * 5) 7 = Py.Ok (df2, out2) /\
    List.length df = 1001%nat /\
    List.length df2 = 1001%nat /\
    (forall i r r2,
        nth_error df i = Some r -> nth_error df2 i = Some r2 ->
        IO.Step r2 = IO.Step r /\
        IO.dB_dt r2 = 2 * IO.dB_dt r /\
        IO.Induced_Voltage r2 = 2 * IO.Induced_Voltage r /\
        IO.Max_E_field r2 = 2 * IO.Max_E_field r /\
        IO.Power_Density r2 = 4 * IO.Power_Density r).
Proof.
  split; [split; [lia | lra]|].
  apply (doubling_max_dB_dt 1000 5 7); [lia | lra].
Defined.

(** ** Input validation *)

Section Validation.

Lemma read_max_dB_dt_reject (x : R) (keys : list IO.entry) (out : console) :
  x <= 0 ->
  IO.read_max_dB_dt (IO.Parsed x :: keys) out
  = IO.read_max_dB_dt keys (out ++ [IO.prompt_dB_dt; IO.err_dB_dt]).
Proof.
  intros Hx; simpl.
  replace (Py.le x 0) with true by (symmetry; apply le_true; exact Hx).
  reflexivity.
Qed.

Lemma read_B_max_reject (x : R) (keys : list IO.entry) (out : console) :
  x <= 0 ->
  IO.read_B_max (IO.Parsed x :: keys) out
  = IO.read_B_max keys (out ++ [IO.prompt_B_max; IO.err_B_max]).
Proof.
  intros Hx; simpl.
  replace (Py.le x 0) with true by (symmetry; apply le_true; exact Hx).
  reflexivity.
Qed.

Lemma read_max_dB_dt_positive (keys : list IO.entry) :
  forall out x rest out',
    IO.read_max_dB_dt keys out = Py.Ok (x, rest, out') -> 0 < x.
Proof.
  induction keys as [|[y|] keys IH]; intros out x rest out' H; simpl in H.
  - discriminate H.
  - destruct (Py.le y 0) eqn:Hy.
    + eapply IH; exact H.
    + apply le_false in Hy. injection H as <- _ _. exact Hy.
  - eapply IH; exact H.
Qed.

Lemma read_B_max_positive (keys : list IO.entry) :
  forall out x rest out',
    IO.read_B_max keys out = Py.Ok (x, rest, out') -> 0 < x.
Proof.
  induction keys as [|[y|] keys IH]; intros out x rest out' H; simpl in H.
  - discriminate H.
  - destruct (Py.le y 0) eqn:Hy.
    + eapply IH; exact H.
    + apply le_false in Hy. injection H as <- _ _. exact Hy.
  - eapply IH; exact H.
Qed.

Lemma read_max_dB_dt_exhausted (keys : list IO.entry) :
  Forall rejected keys ->
  forall out, IO.read_max_dB_dt keys out = Py.Raise Py.EOFError.
Proof.
  induction 1 as [|[y|] keys Hy _ IH]; intros out; simpl.
  - reflexivity.
  - simpl in Hy.
    replace (Py.le y 0) with true by (symmetry; apply le_true; exact Hy).
    apply IH.
  - apply IH.
Qed.

Lemma get_user_input_positive (keys : list IO.entry) (inp : IO.user_input) :
  IO.get_user_input keys = Py.Ok inp ->
  0 < IO.in_max_dB_dt inp /\ 0 < IO.in_B_max inp.
Proof.
  unfold IO.get_user_input; intros H.
  destruct (IO.read_max_dB_dt keys _) as [[[m keys1] out1]|e] eqn:H1;
    simpl in H; [|discriminate H].
  destruct (IO.read_B_max keys1 out1) as [[[B keys2] out2]|e] eqn:H2;
    simpl in H; [|discriminate H].
  injection H as <-; simpl.
  split.
  - eapply read_max_dB_dt_positive; exact H1.
  - eapply read_B_max_positive; exact H2.
Qed.

Lemma main_runs_accepted (keys : list IO.entry) (r : IO.run) :
  IO.main keys = Py.Ok r ->
  exists inp out,
    IO.get_user_input keys = Py.Ok inp /\
    IO.run_simulation (IO.in_max_dB_dt inp) (IO.in_B_max inp)
    = Py.Ok (IO.run_table r, out).
Proof.
  unfold IO.main; intros H.
  destruct (IO.get_user_input keys) as [inp|e];
    cbn [Py.bind] in H; [|discriminate H].
  destruct (IO.run_simulation _ _) as [[df out]|e] eqn:Hsim;
    cbn [Py.bind IO.save_to_csv] in H; [|discriminate H].
  injection H as <-; cbn [IO.run_table].
  exists inp, out; split; [reflexivity | exact Hsim].
Qed.

Lemma get_user_input_accepts (m B : R) (keys : list IO.entry) :
  0 < m -> 0 < B ->
  exists out,
    IO.get_user_input (IO.Parsed m :: IO.Parsed B :: keys)
    = Py.Ok {| IO.in_max_dB_dt := m; IO.in_B_max := B;
               IO.in_keys := keys; IO.in_out := out |}.
Proof.
  intros Hm HB; unfold IO.get_user_input.
  cbn [IO.read_max_dB_dt].
  replace (Py.le m 0) with false by (symmetry; apply le_false; exact Hm).
  cbn [Py.bind IO.read_B_max].
  replace (Py.le B 0) with false by (symmetry; apply le_false; exact HB).
  cbn [Py.bind].
  eexists; reflexivity.
Qed.

Lemma main_accepts (m B : R) (keys : list IO.entry) :
  0 < m -> 0 < B ->
  exists r out,
    IO.main (IO.Parsed m :: IO.Parsed B :: keys) = Py.Ok r /\
    IO.run_simulation m B = Py.Ok (IO.run_table r, out).
Proof.
  intros Hm HB.
  destruct (get_user_input_accepts m B keys Hm HB) as [out0 Hin].
  unfold IO.main; rewrite Hin; cbn [Py.bind IO.in_max_dB_dt IO.in_B_max].
  unfold IO.run_simulation.
  rewrite run_simulation_with_ok by (unfold IO.NUM_STEPS; lia).
  cbn [Py.bind IO.save_to_csv].
  eexists; eexists; split; reflexivity.
Qed.

End Validation.

(** C5, as the code has it: validation sits in [get_user_input].  A typed
    value <= 0, for max_dB_dt or for B_max, is answered with an error line
    and the prompt is repeated; what [get_user_input] returns is positive
    in both components; [main] calls [run_simulation] only on such a pair,
    and when every typed value is rejected [main] ends at the exhausted
    keyboard without a table.  A positive pair typed first is accepted and
    gives the table of 1001 rows. *)
Theorem invalid_input_rejected_at_prompt :
  (forall (x : R) (keys : list IO.entry) (out : console),
      x <= 0 ->
      IO.read_max_dB_dt (IO.Parsed x :: keys) out
      = IO.read_max_dB_dt keys (out ++ [IO.prompt_dB_dt; IO.err_dB_dt]) /\
      IO.read_B_max (IO.Parsed x :: keys) out
      = IO.read_B_max keys (out ++ [IO.prompt_B_max; IO.err_B_max])) /\
  (forall (keys : list IO.entry) (inp : IO.user_input),
      IO.get_user_input keys = Py.Ok inp ->
      0 < IO.in_max_dB_dt inp /\ 0 < IO.in_B_max inp) /\
  (forall (keys : list IO.entry) (r : IO.run),
      IO.main keys = Py.Ok r ->
      exists max_dB_dt B_max out,
        0 < max_dB_dt /\ 0 < B_max /\
        IO.run_simulation max_dB_dt B_max = Py.Ok (IO.run_table r, out)) /\
  (forall keys : list IO.entry,
      Forall rejected keys -> IO.main keys = Py.Raise Py.EOFError) /\
  (forall (max_dB_dt B_max : R) (keys : list IO.entry),
      0 < max_dB_dt -> 0 < B_max ->
      exists r,
        IO.main (IO.Parsed max_dB_dt :: IO.Parsed B_max :: keys) = Py.Ok r /\
        List.length (IO.run_table r) = 1001%nat).
Proof.
  split; [|split; [|split; [|split]]].
  - intros x keys out Hx; split;
      [apply read_max_dB_dt_reject | apply read_B_max_reject]; exact Hx.
  - apply get_user_input_positive.
  - intros keys r H.
    destruct (main_runs_accepted keys r H) as (inp & out & Hin & Hsim).
    destruct (get_user_input_positive keys inp Hin) as [Hm HB].
    exists (IO.in_max_dB_dt inp), (IO.in_B_max inp), out; auto.
  - intros keys Hk; unfold IO.main, IO.get_user_input.
    rewrite read_max_dB_dt_exhausted by exact Hk; reflexivity.
  - intros m B keys Hm HB.
    destruct (main_accepts m B keys Hm HB) as (r & out & Hr & Hsim).
    exists r; split; [exact Hr|].
    unfold IO.run_simulation in Hsim.
    rewrite run_simulation_with_ok in Hsim by (unfold IO.NUM_STEPS; lia).
    assert (Hdf : IO.run_table r
                  = map (io_row_at (m / INR IO.NUM_STEPS))
                      (seq 0 (IO.NUM_STEPS + 1))) by congruence.
    rewrite Hdf, length_map, length_seq; reflexivity.
Qed.

Lemma invalid_input_rejected_at_prompt_witness :
  IO.main [IO.Parsed (-1); IO.Malformed; IO.Parsed 0] = Py.Raise Py.EOFError /\
  exists r,
    IO.main [IO.Parsed 5; IO.Parsed 7] = Py.Ok r /\
    List.length (IO.run_table r) = 1001%nat.
Proof.
  split.
  - apply invalid_input_rejected_at_prompt.
    repeat constructor; simpl; lra.
  - apply invalid_input_rejected_at_prompt; lra.
Defined.

(** C5, as the claim has it, fails: [run_simulation] called on a negative
    max_dB_dt and a negative B_max raises nothing and returns a full table
    of 1001 rows. *)
Lemma run_simulation_does_not_validate :
  -1 <= 0 /\
  exists df out,
    IO.run_simulation (-1) (-1) = Py.Ok (df, out) /\
    List.length df = 1001%nat.
Proof.
  split; [lra|].
  eexists; eexists.
  split; [unfold IO.run_simulation; apply run_simulation_with_ok;
          unfold IO.NUM_STEPS; lia|].
  now rewrite length_map, length_seq.
Qed.

(** ** A worked run

    max_dB_dt = 5 with the 1000 steps of [run_simulation]: the last row has
    dB/dt 5, induced voltage 5 * pi * 0.09 * 0.065, E-field 0.225 and
    current density 0.33 * 0.225; the printed classification is the subtle
    one. *)
Example scenario_step_1000 :
  let r := io_row_at (5 / INR IO.NUM_STEPS) 1000 in
  IO.Step r = 1000%Z /\
  IO.dB_dt r = 5 /\
  IO.Induced_Voltage r = 5 * PI * 0.09 * 0.065 /\
  IO.Max_E_field r = 0.225 /\
  IO.Max_Current_Density r = 0.33 * 0.225 /\
  IO.bioeffect_lines (IO.Max_E_field r) = [[Lit "Subtle Neuromodulation"]].
Proof.
  intros r.
  assert (HN : INR 1000 = 1000) by (rewrite (INR_IZR_INZ 1000); reflexivity).
  assert (Habs : Rabs (5 / INR IO.NUM_STEPS) = 0.005).
  { unfold IO.NUM_STEPS; rewrite HN, Rabs_pos_eq; lra. }
  assert (HE : IO.Max_E_field r = 0.225).
  { unfold r; rewrite io_E_field_at, Habs, HN; lra. }
  split; [reflexivity|].
  split; [unfold r, io_row_at, IO.dB_dt, IO.NUM_STEPS; rewrite HN; lra|].
  split; [unfold r; rewrite io_voltage_at, Habs, HN; lra|].
  split; [exact HE|].
  split.
  - change (0.33 * IO.Max_E_field r = 0.33 * 0.225); rewrite HE; reflexivity.
  - rewrite HE; apply bioeffect_subtle; lra.
Qed.

(** ** More on the prompt loops *)

Section Prompts.

Lemma read_max_dB_dt_skips (bad : list IO.entry) :
  Forall rejected bad ->
  forall (m : R) (rest : list IO.entry) (out : console),
    0 < m ->
    IO.read_max_dB_dt (bad ++ IO.Parsed m :: rest) out
    = Py.Ok (m, rest, out ++ flat_map reply_dB_dt bad ++ [IO.prompt_dB_dt]).
Proof.
  induction 1 as [|[y|] bad Hy _ IH]; intros m rest out Hm.
  - cbn [app flat_map IO.read_max_dB_dt].
    replace (Py.le m 0) with false by (symmetry; apply le_false; exact Hm).
    reflexivity.
  - cbn [app flat_map IO.read_max_dB_dt reply_dB_dt]; simpl in Hy.
    replace (Py.le y 0) with true by (symmetry; apply le_true; exact Hy).
    rewrite IH by exact Hm.
    now rewrite <- !app_assoc.
  - cbn [app flat_map IO.read_max_dB_dt reply_dB_dt].
    rewrite IH by exact Hm.
    now rewrite <- !app_assoc.
Qed.

Lemma read_B_max_skips (bad : list IO.entry) :
  Forall rejected bad ->
  forall (B : R) (rest : list IO.entry) (out : console),
    0 < B ->
    IO.read_B_max (bad ++ IO.Parsed B :: rest) out
    = Py.Ok (B, rest, out ++ flat_map reply_B_max bad ++ [IO.prompt_B_max]).
Proof.
  induction 1 as [|[y|] bad Hy _ IH]; intros B rest out HB.
  - cbn [app flat_map IO.read_B_max].
    replace (Py.le B 0) with false by (symmetry; apply le_false; exact HB).
    reflexivity.
  - cbn [app flat_map IO.read_B_max reply_B_max]; simpl in Hy.
    replace (Py.le y 0) with true by (symmetry; apply le_true; exact Hy).
    rewrite IH by exact HB.
    now rewrite <- !app_assoc.
  - cbn [app flat_map IO.read_B_max reply_B_max].
    rewrite IH by exact HB.
    now rewrite <- !app_assoc.
Qed.

Lemma read_B_max_exhausted (keys : list IO.entry) :
  Forall rejected keys ->
  forall out, IO.read_B_max keys out = Py.Raise Py.EOFError.
Proof.
  induction 1 as [|[y|] keys Hy _ IH]; intros out; simpl.
  - reflexivity.
  - simpl in Hy.
    replace (Py.le y 0) with true by (symmetry; apply le_true; exact Hy).
    apply IH.
  - apply IH.
Qed.

(** A keyboard is all rejected entries, or it has a first accepted one. *)
Lemma first_accepted (keys : list IO.entry) :
  Forall rejected keys \/
  exists bad x rest,
    keys = bad ++ IO.Parsed x :: rest /\ Forall rejected bad /\ 0 < x.
Proof.
  induction keys as [|[y|] keys IH].
  - left; constructor.
  - destruct (Rle_lt_dec y 0) as [Hy|Hy].
    + destruct IH as [IH|(bad & x & rest & -> & Hbad & Hx)].
      * left; constructor; [exact Hy | exact IH].
      * right; exists (IO.Parsed y :: bad), x, rest.
        split; [reflexivity|]; split; [constructor; assumption | exact Hx].
    + right; exists [], y, keys; repeat split; [constructor | exact Hy].
  - destruct IH as [IH|(bad & x & rest & -> & Hbad & Hx)].
    + left; constructor; [exact I | exact IH].
    + right; exists (IO.Malformed :: bad), x, rest.
      split; [reflexivity|]; split; [constructor; [exact I | assumption] | exact Hx].
Qed.

Lemma get_user_input_eof_after_dB_dt (bad1 bad2 : list IO.entry) (m : R) :
  Forall rejected bad1 -> 0 < m -> Forall rejected bad2 ->
  IO.get_user_input (bad1 ++ IO.Parsed m :: bad2) = Py.Raise Py.EOFError.
Proof.
  intros H1 Hm H2; unfold IO.get_user_input.
  rewrite read_max_dB_dt_skips by assumption.
  cbn [Py.bind].
  rewrite read_B_max_exhausted by assumption.
  reflexivity.
Qed.

Lemma get_user_input_eof_at_dB_dt (keys : list IO.entry) :
  Forall rejected keys ->
  IO.get_user_input keys = Py.Raise Py.EOFError.
Proof.
  intros H; unfold IO.get_user_input.
  rewrite read_max_dB_dt_exhausted by assumption.
  reflexivity.
Qed.

End Prompts.

(** X1: whatever rejected entries (numbers <= 0, or text that is not a
    number) come before them, [get_user_input] returns the first positive
    number typed as max_dB_dt and the first positive number typed after it
    as B_max, leaves the rest of the keyboard untouched, and has printed the
    title, one prompt and one error line per rejected entry, and the two
    accepted prompts. *)
Theorem get_user_input_first_accepted :
  forall (bad1 bad2 rest : list IO.entry) (m B : R),
    Forall rejected bad1 -> Forall rejected bad2 -> 0 < m -> 0 < B ->
    IO.get_user_input (bad1 ++ IO.Parsed m :: bad2 ++ IO.Parsed B :: rest)
    = Py.Ok {| IO.in_max_dB_dt := m;
               IO.in_B_max := B;
               IO.in_keys := rest;
               IO.in_out := input_title
                 ++ flat_map reply_dB_dt bad1 ++ [IO.prompt_dB_dt]
                 ++ flat_map reply_B_max bad2 ++ [IO.prompt_B_max] |}.
Proof.
  intros bad1 bad2 rest m B H1 H2 Hm HB.
  unfold IO.get_user_input.
  rewrite read_max_dB_dt_skips by assumption.
  cbn [Py.bind].
  rewrite read_B_max_skips by assumption.
  cbn [Py.bind].
  unfold input_title; now rewrite <- !app_assoc.
Qed.

Lemma get_user_input_first_accepted_witness :
  IO.get_user_input
    ([IO.Parsed (-3); IO.Malformed] ++ IO.Parsed 5
       :: [IO.Parsed 0] ++ IO.Parsed 7 :: [IO.Malformed])
  = Py.Ok {| IO.in_max_dB_dt := 5;
             IO.in_B_max := 7;
             IO.in_keys := [IO.Malformed];
             IO.in_out := input_title
               ++ flat_map reply_dB_dt [IO.Parsed (-3); IO.Malformed]
               ++ [IO.prompt_dB_dt]
               ++ flat_map reply_B_max [IO.Parsed 0] ++ [IO.prompt_B_max] |}.
Proof.
  apply (get_user_input_first_accepted
           [IO.Parsed (-3); IO.Malformed] [IO.Parsed 0] [IO.Malformed] 5 7);
    try lra; repeat constructor; simpl; lra.
Defined.

(** X2: the only way [get_user_input] fails is an exhausted keyboard
    ([EOFError]), and that happens exactly in two ways: no entry is
    accepted as max_dB_dt, or one is and no later entry is accepted as
    B_max. *)
Theorem get_user_input_fails_only_at_eof :
  forall (keys : list IO.entry) (e : Py.exn),
    IO.get_user_input keys = Py.Raise e ->
    e = Py.EOFError /\
    (Forall rejected keys \/
     exists bad1 m bad2,
       keys = bad1 ++ IO.Parsed m :: bad2 /\
       Forall rejected bad1 /\ 0 < m /\ Forall rejected bad2).
Proof.
  intros keys e H.
  destruct (first_accepted keys) as [Hall|(bad1 & m & keys1 & -> & H1 & Hm)].
  - rewrite get_user_input_eof_at_dB_dt in H by exact Hall.
    split; [congruence | left; exact Hall].
  - destruct (first_accepted keys1) as [Hall|(bad2 & B & rest & -> & H2 & HB)].
    + rewrite get_user_input_eof_after_dB_dt in H by assumption.
      split; [congruence|].
      right; exists bad1, m, keys1; auto.
    + rewrite get_user_input_first_accepted in H by assumption.
      discriminate H.
Qed.

Lemma get_user_input_fails_only_at_eof_witness :
  IO.get_user_input ([IO.Malformed] ++ IO.Parsed 5 :: [IO.Parsed (-1)])
  = Py.Raise Py.EOFError /\
  Py.EOFError = Py.EOFError.
Proof.
  assert (H : IO.get_user_input ([IO.Malformed] ++ IO.Parsed 5 :: [IO.Parsed (-1)])
              = Py.Raise Py.EOFError).
  { apply get_user_input_eof_after_dB_dt;
      try lra; repeat constructor; simpl; lra. }
  split; [exact H|].
  apply (get_user_input_fails_only_at_eof _ _ H).
Defined.

(** ** The interactive program end to end *)

(** [run_simulation] returns for every pair of numbers. *)
Lemma run_simulation_ok (max_dB_dt B_max : R) :
  IO.run_simulation max_dB_dt B_max
  = Py.Ok (map (io_row_at (max_dB_dt / INR IO.NUM_STEPS)) (seq 0 (IO.NUM_STEPS + 1)),
           IO.parameter_lines IO.NUM_STEPS max_dB_dt B_max
             ++ IO.high_field_lines B_max
             ++ IO.bioeffect_lines
                  (IO.Max_E_field
                     (io_row_at (max_dB_dt / INR IO.NUM_STEPS) IO.NUM_STEPS))
             ++ IO.summary_lines
                  (map (io_row_at (max_dB_dt / INR IO.NUM_STEPS))
                     (seq 0 (IO.NUM_STEPS + 1)))).
Proof.
  unfold IO.run_simulation; apply run_simulation_with_ok.
  unfold IO.NUM_STEPS; lia.
Qed.





(** ** Scaling and sign *)

Lemma io_row_at_scale (k inc : R) (i : nat) :
  IO.Step (io_row_at (k * inc) i) = IO.Step (io_row_at inc i) /\
  IO.dB_dt (io_row_at (k * inc) i) = k * IO.dB_dt (io_row_at inc i) /\
  IO.Induced_Voltage (io_row_at (k * inc) i)
  = Rabs k * IO.Induced_Voltage (io_row_at inc i) /\
  IO.Max_E_field (io_row_at (k * inc) i)
  = Rabs k * IO.Max_E_field (io_row_at inc i) /\
  IO.Max_Current_Density (io_row_at (k * inc) i)
  = Rabs k * IO.Max_Current_Density (io_row_at inc i) /\
  IO.Power_Density (io_row_at (k * inc) i)
  = k ^ 2 * IO.Power_Density (io_row_at inc i).
Proof.
  assert (HE : IO.Max_E_field (io_row_at (k * inc) i)
               = Rabs k * IO.Max_E_field (io_row_at inc i)).
  { rewrite !io_E_field_at, Rabs_mult; ring. }
  split; [reflexivity|].
  split; [simpl; ring|].
  split; [rewrite !io_voltage_at, Rabs_mult; ring|].
  split; [exact HE|].
  split.
  - change (0.33 * IO.Max_E_field (io_row_at (k * inc) i)
            = Rabs k * (0.33 * IO.Max_E_field (io_row_at inc i))).
    rewrite HE; ring.
  - change (0.33 * IO.Max_E_field (io_row_at (k * inc) i) ^ 2
            = k ^ 2 * (0.33 * IO.Max_E_field (io_row_at inc i) ^ 2)).
    rewrite HE, <- (pow2_abs k); ring.
Qed.

(** X5: the table of [run_simulation] is homogeneous in max_dB_dt.  For any
    factor k, of either sign or zero, the run on k * max_dB_dt has at each
    step k times the dB/dt, |k| times the induced voltage, the E-field and
    the current density, and k^2 times the power density of the run on
    max_dB_dt.  With k = -1: a negative max_dB_dt gives the table of its
    absolute value with the dB/dt column negated. *)
Theorem run_simulation_homogeneous :
  forall k max_dB_dt B_max : R,
    exists df out dfk outk,
      IO.run_simulation max_dB_dt B_max = Py.Ok (df, out) /\
      IO.run_simulation (k * max_dB_dt) B_max = Py.Ok (dfk, outk) /\
      List.length dfk = List.length df /\
      (forall i r rk,
          nth_error df i = Some r -> nth_error dfk i = Some rk ->
          IO.Step rk = IO.Step r /\
          IO.dB_dt rk = k * IO.dB_dt r /\
          IO.Induced_Voltage rk = Rabs k * IO.Induced_Voltage r /\
          IO.Max_E_field rk = Rabs k * IO.Max_E_field r /\
          IO.Max_Current_Density rk = Rabs k * IO.Max_Current_Density r /\
          IO.Power_Density rk = k ^ 2 * IO.Power_Density r).
Proof.
  intros k max_dB_dt B_max.
  eexists; eexists; eexists; eexists.
  split; [apply run_simulation_ok|].
  split; [apply run_simulation_ok|].
  split; [now rewrite !length_map|].
  intros i r rk Hr Hrk.
  apply nth_error_map_seq in Hr; apply nth_error_map_seq in Hrk.
  destruct Hr as [_ ->]; destruct Hrk as [_ ->].
  replace (k * max_dB_dt / INR IO.NUM_STEPS)
    with (k * (max_dB_dt / INR IO.NUM_STEPS)) by (unfold Rdiv; ring).
  apply io_row_at_scale.
Qed.

(** ** The summary block *)

Section Summary.

Variable inc : R.

Lemma fold_max_seq_anti (g : nat -> R) (a n : nat) :
  (forall i j, (i <= j)%nat -> g j <= g i) ->
  fold_left (fun m i => Rmax m (g i)) (seq (S a) n) (g a) = g a.
Proof.
  intros Hg.
  assert (H : forall n b, (a < b)%nat ->
                fold_left (fun m i => Rmax m (g i)) (seq b n) (g a) = g a).
  { clear n; induction n as [|n IH]; intros b Hb; simpl; [reflexivity|].
    rewrite Rmax_left by (apply Hg; lia).
    apply IH; lia. }
  apply H; lia.
Qed.

(** The maximum of a column that never decreases is its last entry. *)
Lemma io_column_max_last (col : IO.row -> R) (N : nat) :
  (forall i j, (i <= j)%nat ->
               col (io_row_at inc i) <= col (io_row_at inc j)) ->
  IO.column_max col (map (io_row_at inc) (seq 0 (N + 1)))
  = Some (col (io_row_at inc N)).
Proof.
  intros Hmono.
  rewrite Nat.add_1_r; cbn [seq map IO.column_max].
  rewrite fold_max_map.
  rewrite (fold_max_seq (fun i => col (io_row_at inc i)) 0 N Hmono).
  reflexivity.
Qed.

(** The maximum of a column that never increases is its first entry. *)
Lemma io_column_max_first (col : IO.row -> R) (N : nat) :
  (forall i j, (i <= j)%nat ->
               col (io_row_at inc j) <= col (io_row_at inc i)) ->
  IO.column_max col (map (io_row_at inc) (seq 0 (N + 1)))
  = Some (col (io_row_at inc 0)).
Proof.
  intros Hanti.
  rewrite Nat.add_1_r; cbn [seq map IO.column_max].
  rewrite fold_max_map.
  rewrite (fold_max_seq_anti (fun i => col (io_row_at inc i)) 0 N Hanti).
  reflexivity.
Qed.

Lemma io_voltage_mono (i j : nat) :
  (i <= j)%nat ->
  IO.Induced_Voltage (io_row_at inc i) <= IO.Induced_Voltage (io_row_at inc j).
Proof.
  intros Hij; rewrite !io_voltage_at.
  pose proof (Rabs_pos inc) as Hinc; pose proof PI_RGT_0 as Hpi.
  apply le_INR in Hij.
  apply Rmult_le_compat_r.
  - apply Rmult_le_pos; [apply Rmult_le_pos|]; lra.
  - apply Rmult_le_compat_r; assumption.
Qed.

Lemma io_current_mono (i j : nat) :
  (i <= j)%nat ->
  IO.Max_Current_Density (io_row_at inc i)
  <= IO.Max_Current_Density (io_row_at inc j).
Proof.
  intros Hij; pose proof (io_E_field_mono inc i j Hij) as H.
  change (0.33 * IO.Max_E_field (io_row_at inc i)
          <= 0.33 * IO.Max_E_field (io_row_at inc j)); lra.
Qed.

End Summary.

(** X6: the four maxima shown in the summary block, in closed form.  For a
    run of N >= 1 steps on any max_dB_dt: the maximum dB/dt is max_dB_dt
    itself when it is >= 0 and 0 (the first row) when it is negative; the
    maximum induced voltage is |max_dB_dt| * pi * 0.09 * 0.065, the maximum
    E-field 0.045 * |max_dB_dt| and the maximum current density
    0.33 * 0.045 * |max_dB_dt|. *)
Theorem summary_maxima_closed_form :
  forall (N : nat) (max_dB_dt B_max : R),
    (1 <= N)%nat ->
    exists df out,
      IO.run_simulation_with N max_dB_dt B_max = Py.Ok (df, out) /\
      IO.column_max IO.dB_dt df = Some (Rmax 0 max_dB_dt) /\
      IO.column_max IO.Induced_Voltage df
      = Some (Rabs max_dB_dt * PI * 0.09 * 0.065) /\
      IO.column_max IO.Max_E_field df = Some (0.045 * Rabs max_dB_dt) /\
      IO.column_max IO.Max_Current_Density df
      = Some (0.33 * (0.045 * Rabs max_dB_dt)).
Proof.
  intros N max_dB_dt B_max HN.
  assert (HNR : 0 < INR N) by (apply lt_0_INR; lia).
  set (inc := max_dB_dt / INR N).
  assert (Hlast : INR N * Rabs inc = Rabs max_dB_dt).
  { unfold inc, Rdiv.
    rewrite Rabs_mult, (Rabs_pos_eq (/ INR N))
      by (apply Rlt_le, Rinv_0_lt_compat; exact HNR).
    field; lra. }
  eexists; eexists; split; [apply run_simulation_with_ok; exact HN|].
  fold inc.
  split; [|split; [|split]].
  - destruct (Rle_lt_dec 0 max_dB_dt) as [Hpos|Hneg].
    + assert (Hinc : 0 <= inc).
      { unfold inc, Rdiv; apply Rmult_le_pos;
          [exact Hpos | apply Rlt_le, Rinv_0_lt_compat; exact HNR]. }
      rewrite io_column_max_last.
      * f_equal; rewrite Rmax_right by exact Hpos.
        simpl; unfold inc; field; lra.
      * intros i j Hij; simpl; apply le_INR in Hij.
        apply Rmult_le_compat_r; assumption.
    + assert (Hinc : inc <= 0).
      { unfold inc, Rdiv.
        pose proof (Rinv_0_lt_compat _ HNR) as Hinv.
        apply Rlt_le; rewrite <- (Rmult_0_l (/ INR N)).
        apply Rmult_lt_compat_r; assumption. }
      rewrite io_column_max_first.
      * f_equal; rewrite Rmax_left by lra. simpl; ring.
      * intros i j Hij; simpl; apply le_INR in Hij.
        nra.
  - rewrite io_column_max_last by (intros i j; apply io_voltage_mono).
    f_equal; rewrite io_voltage_at, Hlast; ring.
  - rewrite io_column_max_last by (intros i j; apply io_E_field_mono).
    f_equal; rewrite io_E_field_at, Hlast; ring.
  - rewrite io_column_max_last by (intros i j; apply io_current_mono).
    f_equal.
    change (0.33 * IO.Max_E_field (io_row_at inc N)
            = 0.33 * (0.045 * Rabs max_dB_dt)).
    rewrite io_E_field_at, Hlast; ring.
Qed.

Lemma summary_maxima_closed_form_witness :
  (1 <= 1000)%nat /\
  exists df out,
    IO.run_simulation 5 7 = Py.Ok (df, out) /\
    IO.column_max IO.dB_dt df = Some (Rmax 0 5) /\
    IO.column_max IO.Induced_Voltage df = Some (Rabs 5 * PI * 0.09 * 0.065) /\
    IO.column_max IO.Max_E_field df = Some (0.045 * Rabs 5) /\
    IO.column_max IO.Max_Current_Density df = Some (0.33 * (0.045 * Rabs 5)).
Proof.
  split; [lia|].
  apply (summary_maxima_closed_form 1000 5 7); lia.
Defined.

(** ** Reading the classification back *)

Lemma bioeffect_cases (E_max : R) :
  E_max < 0.1 \/ 0.1 <= E_max <= 1 \/ 1 < E_max <= 5.8 \/
  5.8 < E_max <= 10 \/ 10 < E_max.
Proof.
  destruct (Rle_lt_dec 0.1 E_max); [|lra].
  destruct (Rle_lt_dec E_max 1); [lra|].
  destruct (Rle_lt_dec E_max 5.8); [lra|].
  destruct (Rle_lt_dec E_max 10); lra.
Qed.

(** X7: the lines printed after the loop tell the range of [E_max] apart.
    "Subtle Neuromodulation" alone is printed exactly on [0.1, 1], the
    header with the tingling line exactly on (1, 5.8], the header with the
    painful line exactly on (5.8, 10], nothing exactly outside [0.1, 10];
    no other output occurs, so the header never stands alone and the
    tingling and painful lines never come together. *)
Theorem bioeffect_lines_inverse :
  forall E_max : R,
    (IO.bioeffect_lines E_max = [[Lit "Subtle Neuromodulation"]]
     <-> 0.1 <= E_max <= 1) /\
    (IO.bioeffect_lines E_max
     = [[Lit "***PERIPHERAL NERVE STIMULATION***"];
        [Lit "!!! Sensory Perception - tingling !!!"]]
     <-> 1 < E_max <= 5.8) /\
    (IO.bioeffect_lines E_max
     = [[Lit "***PERIPHERAL NERVE STIMULATION***"];
        [Lit "!!! Sensory Perception - PAINFUL !!!"]]
     <-> 5.8 < E_max <= 10) /\
    (IO.bioeffect_lines E_max = [] <-> E_max < 0.1 \/ 10 < E_max) /\
    (IO.bioeffect_lines E_max = [[Lit "Subtle Neuromodulation"]] \/
     IO.bioeffect_lines E_max
     = [[Lit "***PERIPHERAL NERVE STIMULATION***"];
        [Lit "!!! Sensory Perception - tingling !!!"]] \/
     IO.bioeffect_lines E_max
     = [[Lit "***PERIPHERAL NERVE STIMULATION***"];
        [Lit "!!! Sensory Perception - PAINFUL !!!"]] \/
     IO.bioeffect_lines E_max = []).
Proof.
  intros E_max.
  destruct (bioeffect_cases E_max) as [H|[H|[H|[H|H]]]].
  - rewrite (bioeffect_below E_max H).
    repeat split; intros; try discriminate; try lra; auto.
  - rewrite (bioeffect_subtle E_max H).
    repeat split; intros; try discriminate; try lra; auto.
  - rewrite (bioeffect_tingling E_max H).
    repeat split; intros; try discriminate; try lra; auto.
  - rewrite (bioeffect_painful E_max H).
    repeat split; intros; try discriminate; try lra; auto 6.
  - rewrite (bioeffect_above E_max H).
    repeat split; intros; try discriminate; try lra; auto 6.
Qed.

(** X8: what [run_simulation] prints as classification is decided by
    max_dB_dt alone, through the last row's E-field 0.045 * |max_dB_dt|:
    subtle neuromodulation exactly for |max_dB_dt| in [20/9, 200/9],
    tingling exactly in (200/9, 1160/9], painful exactly in
    (1160/9, 2000/9], and no line exactly below 20/9 or above 2000/9. *)
Theorem classification_by_max_dB_dt :
  forall (N : nat) (max_dB_dt B_max : R),
    (1 <= N)%nat ->
    exists df,
      IO.run_simulation_with N max_dB_dt B_max
      = Py.Ok (df, IO.parameter_lines N max_dB_dt B_max
                     ++ IO.high_field_lines B_max
                     ++ IO.bioeffect_lines (0.045 * Rabs max_dB_dt)
                     ++ IO.summary_lines df) /\
      (IO.bioeffect_lines (0.045 * Rabs max_dB_dt)
       = [[Lit "Subtle Neuromodulation"]]
       <-> 20 / 9 <= Rabs max_dB_dt <= 200 / 9) /\
      (IO.bioeffect_lines (0.045 * Rabs max_dB_dt)
       = [[Lit "***PERIPHERAL NERVE STIMULATION***"];
          [Lit "!!! Sensory Perception - tingling !!!"]]
       <-> 200 / 9 < Rabs max_dB_dt <= 1160 / 9) /\
      (IO.bioeffect_lines (0.045 * Rabs max_dB_dt)
       = [[Lit "***PERIPHERAL NERVE STIMULATION***"];
          [Lit "!!! Sensory Perception - PAINFUL !!!"]]
       <-> 1160 / 9 < Rabs max_dB_dt <= 2000 / 9) /\
      (IO.bioeffect_lines (0.045 * Rabs max_dB_dt) = []
       <-> Rabs max_dB_dt < 20 / 9 \/ 2000 / 9 < Rabs max_dB_dt).
Proof.
  intros N max_dB_dt B_max HN.
  assert (HNR : 0 < INR N) by (apply lt_0_INR; lia).
  assert (HE : IO.Max_E_field (io_row_at (max_dB_dt / INR N) N)
               = 0.045 * Rabs max_dB_dt).
  { rewrite io_E_field_at; unfold Rdiv.
    rewrite Rabs_mult, (Rabs_pos_eq (/ INR N))
      by (apply Rlt_le, Rinv_0_lt_compat; exact HNR).
    field; lra. }
  eexists; split.
  { rewrite run_simulation_with_ok by exact HN. rewrite HE. reflexivity. }
  destruct (bioeffect_lines_inverse (0.045 * Rabs max_dB_dt))
    as (H1 & H2 & H3 & H4 & _).
  rewrite H1, H2, H3, H4.
  repeat split; intros; lra.
Qed.

Lemma classification_by_max_dB_dt_witness :
  (1 <= 1000)%nat /\
  exists df,
    IO.run_simulation 5 7
    = Py.Ok (df, IO.parameter_lines 1000 5 7
                   ++ IO.high_field_lines 7
                   ++ IO.bioeffect_lines (0.045 * Rabs 5)
                   ++ IO.summary_lines df) /\
    (IO.bioeffect_lines (0.045 * Rabs 5) = [[Lit "Subtle Neuromodulation"]]
     <-> 20 / 9 <= Rabs 5 <= 200 / 9) /\
    (IO.bioeffect_lines (0.045 * Rabs 5)
     = [[Lit "***PERIPHERAL NERVE STIMULATION***"];
        [Lit "!!! Sensory Perception - tingling !!!"]]
     <-> 200 / 9 < Rabs 5 <= 1160 / 9) /\
    (IO.bioeffect_lines (0.045 * Rabs 5)
     = [[Lit "***PERIPHERAL NERVE STIMULATION***"];
        [Lit "!!! Sensory Perception - PAINFUL !!!"]]
     <-> 1160 / 9 < Rabs 5 <= 2000 / 9) /\
    (IO.bioeffect_lines (0.045 * Rabs 5) = []
     <-> Rabs 5 < 20 / 9 \/ 2000 / 9 < Rabs 5).
Proof.
  split; [lia|].
  apply (classification_by_max_dB_dt 1000 5 7); lia.
Defined.

(** ** The two scripts against each other *)

Lemma drop_step_row_at (inc : R) (i : nat) :
  drop_step (io_row_at inc i) = batch_row_at inc i.
Proof. reflexivity. Qed.

(** X9: the two scripts compute the same numbers.  For N >= 1 steps of
    size B_ROC_INCREMENT the batch table is the table [run_simulation]
    builds for max_dB_dt = N * B_ROC_INCREMENT, without the 'Step' column;
    the batch script's own table (100 steps of 0.05) is the interactive one
    for 100 steps up to 5. *)
Theorem batch_table_is_io_table :
  forall (N : nat) (B_ROC_INCREMENT B_max : R),
    (1 <= N)%nat ->
    (exists df out,
        IO.run_simulation_with N (INR N * B_ROC_INCREMENT) B_max = Py.Ok (df, out) /\
        map drop_step df = Batch.main_with N B_ROC_INCREMENT) /\
    (exists df out,
        IO.run_simulation_with 100 5 B_max = Py.Ok (df, out) /\
        map drop_step df = Batch.main).
Proof.
  intros N inc B_max HN.
  assert (HNR : INR N <> 0) by (apply not_0_INR; lia).
  split.
  - eexists; eexists; split; [apply run_simulation_with_ok; exact HN|].
    rewrite batch_main_rows, map_map.
    replace (INR N * inc / INR N) with inc by (field; exact HNR).
    apply map_ext; intros i; apply drop_step_row_at.
  - eexists; eexists; split; [apply run_simulation_with_ok; lia|].
    unfold Batch.main; rewrite batch_main_rows, map_map.
    replace (5 / INR 100) with Batch.B_ROC_INCREMENT.
    + apply map_ext; intros i; apply drop_step_row_at.
    + unfold Batch.B_ROC_INCREMENT.
      rewrite (INR_IZR_INZ 100); simpl; lra.
Qed.

Lemma batch_table_is_io_table_witness :
  (1 <= 100)%nat /\
  exists df out,
    IO.run_simulation_with 100 (INR 100 * 0.05) 7 = Py.Ok (df, out) /\
    map drop_step df = Batch.main_with 100 0.05.
Proof.
  split; [lia|].
  apply (batch_table_is_io_table 100 0.05 7); lia.
Defined.

(** ** Order of the rows *)

(** X10: the table is in step order and, unless max_dB_dt is 0, every
    derived column climbs strictly with the step, whatever the sign of
    max_dB_dt: row i carries step index i, and for i < j the induced
    voltage, E-field, current density and power density of row i are below
    those of row j. *)
Theorem derived_columns_strictly_increasing :
  forall (N : nat) (max_dB_dt B_max : R),
    (1 <= N)%nat -> max_dB_dt <> 0 ->
    exists df out,
      IO.run_simulation_with N max_dB_dt B_max = Py.Ok (df, out) /\
      (forall i r, nth_error df i = Some r -> IO.Step r = Z.of_nat i) /\
      (forall i j ri rj,
          (i < j)%nat ->
          nth_error df i = Some ri -> nth_error df j = Some rj ->
          IO.Induced_Voltage ri < IO.Induced_Voltage rj /\
          IO.Max_E_field ri < IO.Max_E_field rj /\
          IO.Max_Current_Density ri < IO.Max_Current_Density rj /\
          IO.Power_Density ri < IO.Power_Density rj).
Proof.
  intros N max_dB_dt B_max HN Hmax.
  assert (HNR : 0 < INR N) by (apply lt_0_INR; lia).
  set (inc := max_dB_dt / INR N).
  assert (Hinc : 0 < Rabs inc).
  { apply Rabs_pos_lt; unfold inc, Rdiv.
    apply Rmult_integral_contrapositive_currified;
      [exact Hmax | apply Rinv_neq_0_compat; lra]. }
  eexists; eexists; split; [apply run_simulation_with_ok; exact HN|].
  fold inc; split.
  - intros i r Hr; apply nth_error_map_seq in Hr.
    destruct Hr as [_ ->]; reflexivity.
  - intros i j ri rj Hij Hi Hj.
    apply nth_error_map_seq in Hi; apply nth_error_map_seq in Hj.
    destruct Hi as [_ ->]; destruct Hj as [_ ->].
    pose proof (io_E_field_nonneg inc i) as HEi.
    assert (HE : IO.Max_E_field (io_row_at inc i)
                 < IO.Max_E_field (io_row_at inc j)).
    { rewrite !io_E_field_at.
      apply lt_INR in Hij; nra. }
    split; [|split; [exact HE|split]].
    + rewrite !io_voltage_at.
      pose proof PI_RGT_0 as Hpi; apply lt_INR in Hij.
      apply Rmult_lt_compat_r; [nra|].
      apply Rmult_lt_compat_r; assumption.
    + change (0.33 * IO.Max_E_field (io_row_at inc i)
              < 0.33 * IO.Max_E_field (io_row_at inc j)); lra.
    + change (0.33 * IO.Max_E_field (io_row_at inc i) ^ 2
              < 0.33 * IO.Max_E_field (io_row_at inc j) ^ 2); nra.
Qed.

Lemma derived_columns_strictly_increasing_witness :
  ((1 <= 1000)%nat /\ -5 <> 0) /\
  exists df out,
    IO.run_simulation (-5) 7 = Py.Ok (df, out) /\
    (forall i r, nth_error df i = Some r -> IO.Step r = Z.of_nat i) /\
    (forall i j ri rj,
        (i < j)%nat ->
        nth_error df i = Some ri -> nth_error df j = Some rj ->
        IO.Induced_Voltage ri < IO.Induced_Voltage rj /\
        IO.Max_E_field ri < IO.Max_E_field rj /\
        IO.Max_Current_Density ri < IO.Max_Current_Density rj /\
        IO.Power_Density ri < IO.Power_Density rj).
Proof.
  split; [split; [lia | lra]|].
  apply (derived_columns_strictly_increasing 1000 (-5) 7); [lia | lra].
Defined.

(** ** The batch report *)

Section Windows.

Lemma slice_in_range {A : Type} (l : list A) (a n : nat) :
  (a + n <= List.length l)%nat ->
  Py.slice l (Z.of_nat a) (Z.of_nat a + Z.of_nat n)
  = firstn n (skipn a l).
Proof.
  intros H; unfold Py.slice, Py.slice_bound.
  destruct (Z.ltb_spec (Z.of_nat a) 0); [lia|].
  destruct (Z.ltb_spec (Z.of_nat a + Z.of_nat n) 0); [lia|].
  rewrite !Z.min_l by lia.
  replace (Z.of_nat a + Z.of_nat n - Z.of_nat a)%Z with (Z.of_nat n) by lia.
  now rewrite !Nat2Z.id.
Qed.

Lemma batch_main_length (N : nat) (inc : R) :
  List.length (Batch.main_with N inc) = (N + 1)%nat.
Proof. now rewrite batch_main_rows, length_map, length_seq. Qed.

Lemma mid_start_nat (N : nat) :
  (10 <= N)%nat -> Batch.mid_start N = Z.of_nat (N / 2 - 5).
Proof.
  intros HN; unfold Batch.mid_start.
  pose proof (Nat.div_mod_eq N 2) as Hdiv.
  pose proof (Nat.mod_upper_bound N 2) as Hmod.
  lia.
Qed.

Lemma half_bound (N : nat) :
  (10 <= N)%nat -> (5 <= N / 2)%nat /\ (N / 2 + 5 <= N)%nat.
Proof.
  intros HN.
  pose proof (Nat.div_mod_eq N 2) as Hdiv.
  pose proof (Nat.mod_upper_bound N 2) as Hmod.
  lia.
Qed.

End Windows.

(** X11: for NUM_STEPS = N >= 10 the three frames of the report are full
    windows of ten rows of the table: the first shows rows 0..9, the last
    rows N-9..N, and the middle one rows N//2-5 .. N//2+4.  The value
    announced in the middle heading, (N//2) * B_ROC_INCREMENT, is the dB/dt
    of the sixth row of that window. *)
Theorem report_windows :
  forall (N : nat) (B_ROC_INCREMENT : R),
    (10 <= N)%nat ->
    let df := Batch.main_with N B_ROC_INCREMENT in
    let middle := Batch.iloc df (Batch.mid_start N) (Batch.mid_start N + 10) in
    List.length (Batch.head 10 df) = 10%nat /\
    List.length middle = 10%nat /\
    List.length (Batch.tail 10 df) = 10%nat /\
    (forall k, (k < 10)%nat ->
               nth_error (Batch.head 10 df) k = nth_error df k) /\
    (forall k, (k < 10)%nat ->
               nth_error middle k = nth_error df (N / 2 - 5 + k)) /\
    (forall k, (k < 10)%nat ->
               nth_error (Batch.tail 10 df) k = nth_error df (N - 9 + k)) /\
    (exists r, nth_error middle 5 = Some r /\
               Batch.dB_dt r = INR (N / 2) * B_ROC_INCREMENT).
Proof.
  intros N inc HN df middle.
  assert (Hlen : List.length df = (N + 1)%nat) by apply batch_main_length.
  destruct (half_bound N HN) as [Hhalf Hle].
  assert (Hmid : middle = firstn 10 (skipn (N / 2 - 5) df)).
  { unfold middle, Batch.iloc.
    rewrite (mid_start_nat N HN).
    apply (slice_in_range df (N / 2 - 5) 10); lia. }
  assert (Hnth : forall k, (k < 10)%nat ->
                   nth_error middle k = nth_error df (N / 2 - 5 + k)).
  { intros k Hk; rewrite Hmid, nth_error_firstn, nth_error_skipn.
    destruct (Nat.ltb_spec k 10); [reflexivity | lia]. }
  split; [unfold Batch.head; rewrite length_firstn; lia|].
  split; [rewrite Hmid, length_firstn, length_skipn; lia|].
  split; [unfold Batch.tail; rewrite length_skipn; lia|].
  split.
  { intros k Hk; unfold Batch.head; rewrite nth_error_firstn.
    destruct (Nat.ltb_spec k 10); [reflexivity | lia]. }
  split; [exact Hnth|].
  split.
  { intros k Hk; unfold Batch.tail; rewrite nth_error_skipn.
    f_equal; lia. }
  exists (batch_row_at inc (N / 2)); split; [|reflexivity].
  rewrite Hnth by lia.
  replace (N / 2 - 5 + 5)%nat with (N / 2)%nat by lia.
  unfold df; rewrite batch_main_rows, nth_error_map, nth_error_seq.
  destruct (Nat.ltb_spec (N / 2) (N + 1)); [reflexivity | lia].
Qed.

Lemma report_windows_witness :
  (10 <= 100)%nat /\
  List.length (Batch.head 10 (Batch.main_with 100 0.05)) = 10%nat.
Proof.
  split; [lia|].
  apply (report_windows 100 0.05); lia.
Defined.

(** ** The save prompt of the batch script *)

Section SavePrompt.

Open Scope string_scope.

Lemma lower_ascii_inv (c : ascii) :
  (Py.lower_ascii c = "y"%char -> c = "y"%char \/ c = "Y"%char) /\
  (Py.lower_ascii c = "e"%char -> c = "e"%char \/ c = "E"%char) /\
  (Py.lower_ascii c = "s"%char -> c = "s"%char \/ c = "S"%char).
Proof.
  destruct c as [[] [] [] [] [] [] [] []]; vm_compute;
    repeat split; intros H; try discriminate H; auto.
Qed.

Lemma lower_nil (s : string) : Py.lower s = "" -> s = "".
Proof. destruct s; [reflexivity | discriminate]. Qed.

Lemma lower_y (s : string) : Py.lower s = "y" -> s = "y" \/ s = "Y".
Proof.
  destruct s as [|c s]; [discriminate|]; cbn [Py.lower]; intros H.
  injection H as Hc Hs.
  apply lower_nil in Hs; subst s.
  destruct (proj1 (lower_ascii_inv c) Hc) as [-> | ->]; auto.
Qed.

Lemma lower_yes (s : string) :
  Py.lower s = "yes" ->
  In s ["yes"; "yeS"; "yEs"; "yES"; "Yes"; "YeS"; "YEs"; "YES"].
Proof.
  destruct s as [|c1 [|c2 [|c3 s]]]; try discriminate; cbn [Py.lower]; intros H.
  injection H as H1 H2 H3 Hs.
  apply lower_nil in Hs; subst s.
  destruct (proj1 (lower_ascii_inv c1) H1) as [-> | ->];
    destruct (proj1 (proj2 (lower_ascii_inv c2)) H2) as [-> | ->];
    destruct (proj2 (proj2 (lower_ascii_inv c3)) H3) as [-> | ->];
    simpl; auto 10.
Qed.

(** The answers that make [save_option.lower() in ['yes', 'y']] true. *)
Lemma save_answers (s : string) :
  Py.str_in (Py.lower s) ["yes"; "y"] = true <->
  In s ["yes"; "yeS"; "yEs"; "yES"; "Yes"; "YeS"; "YEs"; "YES"; "y"; "Y"].
Proof.
  split.
  - cbn [Py.str_in]; intros H.
    change (In s (["yes"; "yeS"; "yEs"; "yES"; "Yes"; "YeS"; "YEs"; "YES"]
                    ++ ["y"; "Y"])).
    apply in_or_app.
    destruct (String.eqb_spec (Py.lower s) "yes") as [Hyes|_].
    + left; apply lower_yes; exact Hyes.
    + destruct (String.eqb_spec (Py.lower s) "y") as [Hy|_]; [|discriminate H].
      right; apply lower_y in Hy.
      destruct Hy as [-> | ->]; simpl; auto.
  - intros H; simpl in H.
    repeat (destruct H as [<- | H]; [reflexivity|]).
    contradiction.
Qed.

End SavePrompt.

(** X12: at the save prompt of the batch script an answer saves the table
    exactly when it is "yes" or "y" written in any mix of capitals and small
    letters; nothing is trimmed, so every other text, the empty answer
    included, saves nothing.  Either way [main] returns the same table, and
    a saved file is named mri_induced_voltage_results.csv and carries that
    table.  An exhausted keyboard at the prompt is an [EOFError]. *)
Theorem save_prompt_decision :
  forall (N : nat) (B_ROC_INCREMENT : R),
    Batch.main_io_with N B_ROC_INCREMENT None = Py.Raise Py.EOFError /\
    (forall answer : string,
        exists r,
          Batch.main_io_with N B_ROC_INCREMENT (Some answer) = Py.Ok r /\
          Batch.run_table r = Batch.main_with N B_ROC_INCREMENT /\
          (In answer ["yes"; "yeS"; "yEs"; "yES"; "Yes"; "YeS"; "YEs"; "YES";
                      "y"; "Y"]%string ->
           Batch.run_file r
           = Some {| Batch.file_name := "mri_induced_voltage_results.csv";
                     Batch.file_rows := Batch.main_with N B_ROC_INCREMENT |}) /\
          (~ In answer ["yes"; "yeS"; "yEs"; "yES"; "Yes"; "YeS"; "YEs"; "YES";
                        "y"; "Y"]%string ->
           Batch.run_file r = None)).
Proof.
  intros N inc; split; [reflexivity|].
  intros answer; unfold Batch.main_io_with.
  destruct (Py.str_in (Py.lower answer) ["yes"%string; "y"%string]) eqn:Hin.
  - eexists; split; [reflexivity|].
    cbn [Batch.run_table Batch.run_file].
    split; [reflexivity|].
    split; [reflexivity|].
    intros Hnot; exfalso; apply Hnot, save_answers; exact Hin.
  - eexists; split; [reflexivity|].
    cbn [Batch.run_table Batch.run_file].
    split; [reflexivity|].
    split; [|reflexivity].
    intros Hyes; apply save_answers in Hyes; congruence.
Qed.

Lemma save_prompt_decision_witness :
  (exists r,
      Batch.main_io (Some "YeS"%string) = Py.Ok r /\
      Batch.run_file r
      = Some {| Batch.file_name := "mri_induced_voltage_results.csv";
                Batch.file_rows := Batch.main |}) /\
  (exists r,
      Batch.main_io (Some " yes"%string) = Py.Ok r /\
      Batch.run_file r = None).
Proof.
  split.
  - destruct (proj2 (save_prompt_decision Batch.NUM_STEPS Batch.B_ROC_INCREMENT)
                "YeS"%string) as (r & Hr & _ & Hyes & _).
    exists r; split; [exact Hr|].
    apply Hyes; simpl; auto 10.
  - destruct (proj2 (save_prompt_decision Batch.NUM_STEPS Batch.B_ROC_INCREMENT)
                " yes"%string) as (r & Hr & _ & _ & Hno).
    exists r; split; [exact Hr|].
    apply Hno; simpl.
    intros H; repeat (destruct H as [H | H]; [discriminate H|]); exact H.
Defined.

(** ** The summary statistics of the batch script *)

Section BatchSummary.

Variable inc : R.

Lemma batch_column_max_last (col : Batch.row -> R) (N : nat) :
  (forall i j, (i <= j)%nat ->
               col (batch_row_at inc i) <= col (batch_row_at inc j)) ->
  Batch.column_max col (Batch.main_with N inc)
  = Some (col (batch_row_at inc N)).
Proof.
  intros Hmono; rewrite batch_main_rows.
  rewrite Nat.add_1_r; cbn [seq map Batch.column_max].
  rewrite fold_max_map.
  rewrite (fold_max_seq (fun i => col (batch_row_at inc i)) 0 N Hmono).
  reflexivity.
Qed.

Lemma batch_column_max_first (col : Batch.row -> R) (N : nat) :
  (forall i j, (i <= j)%nat ->
               col (batch_row_at inc j) <= col (batch_row_at inc i)) ->
  Batch.column_max col (Batch.main_with N inc)
  = Some (col (batch_row_at inc 0)).
Proof.
  intros Hanti; rewrite batch_main_rows.
  rewrite Nat.add_1_r; cbn [seq map Batch.column_max].
  rewrite fold_max_map.
  rewrite (fold_max_seq_anti (fun i => col (batch_row_at inc i)) 0 N Hanti).
  reflexivity.
Qed.

Lemma batch_summary_maxima (N : nat) :
  Batch.column_max Batch.dB_dt (Batch.main_with N inc)
  = Some (Rmax 0 (INR N * inc)) /\
  Batch.column_max Batch.Induced_Voltage (Batch.main_with N inc)
  = Some (INR N * Rabs inc * PI * 0.09 * 0.065) /\
  Batch.column_max Batch.Max_E_field (Batch.main_with N inc)
  = Some (0.045 * (INR N * Rabs inc)) /\
  Batch.column_max Batch.Max_Current_Density (Batch.main_with N inc)
  = Some (0.33 * (0.045 * (INR N * Rabs inc))).
Proof.
  pose proof (pos_INR N) as HN.
  split; [|split; [|split]].
  - destruct (Rle_lt_dec 0 inc) as [Hpos|Hneg].
    + rewrite batch_column_max_last.
      * f_equal; rewrite Rmax_right by (apply Rmult_le_pos; assumption).
        reflexivity.
      * intros i j Hij; simpl; apply le_INR in Hij.
        apply Rmult_le_compat_r; assumption.
    + rewrite batch_column_max_first.
      * f_equal; rewrite Rmax_left by nra. simpl; ring.
      * intros i j Hij; simpl; apply le_INR in Hij; nra.
  - rewrite batch_column_max_last.
    + f_equal.
      change (IO.Induced_Voltage (io_row_at inc N)
              = INR N * Rabs inc * PI * 0.09 * 0.065).
      rewrite io_voltage_at; ring.
    + intros i j Hij; apply (io_voltage_mono inc i j Hij).
  - rewrite batch_column_max_last.
    + f_equal.
      change (IO.Max_E_field (io_row_at inc N) = 0.045 * (INR N * Rabs inc)).
      apply io_E_field_at.
    + intros i j Hij; apply (io_E_field_mono inc i j Hij).
  - rewrite batch_column_max_last.
    + f_equal.
      change (0.33 * IO.Max_E_field (io_row_at inc N)
              = 0.33 * (0.045 * (INR N * Rabs inc))).
      now rewrite io_E_field_at.
    + intros i j Hij; apply (io_current_mono inc i j Hij).
Qed.

End BatchSummary.

(** X13: the summary statistics of the batch script in closed form.  For
    any step count N and increment: the maximum dB/dt tested is
    N * increment when the increment is >= 0 and 0 otherwise; the maximum
    induced voltage is N * |increment| * pi * 0.09 * 0.065, the maximum
    E-field 0.045 * N * |increment| and the maximum current density 0.33
    times that.  For the script's constants the four printed maxima are 5,
    5 * pi * 0.09 * 0.065, 0.225 and 0.07425. *)
Theorem batch_summary_closed_form :
  (forall (N : nat) (B_ROC_INCREMENT : R),
      let df := Batch.main_with N B_ROC_INCREMENT in
      Batch.column_max Batch.dB_dt df = Some (Rmax 0 (INR N * B_ROC_INCREMENT)) /\
      Batch.column_max Batch.Induced_Voltage df
      = Some (INR N * Rabs B_ROC_INCREMENT * PI * 0.09 * 0.065) /\
      Batch.column_max Batch.Max_E_field df
      = Some (0.045 * (INR N * Rabs B_ROC_INCREMENT)) /\
      Batch.column_max Batch.Max_Current_Density df
      = Some (0.33 * (0.045 * (INR N * Rabs B_ROC_INCREMENT)))) /\
  Batch.summary_items Batch.main
  = [ Batch.nl_rule80;
      Batch.Text [Lit "SUMMARY STATISTICS:"];
      Batch.rule80;
      Batch.Text [Lit "Maximum dB/dt tested: "; Fix 3 5; Lit " T/s"];
      Batch.Text [Lit "Maximum induced voltage: ";
                  Fix 6 (5 * PI * 0.09 * 0.065); Lit " V"];
      Batch.Text [Lit "Maximum E-field: "; Fix 6 0.225; Lit " V/m"];
      Batch.Text [Lit "Maximum current density: "; Fix 6 0.07425;
                  Lit " A/m²"] ].
Proof.
  split; [intros N inc; apply batch_summary_maxima|].
  unfold Batch.summary_items, Batch.main.
  destruct (batch_summary_maxima Batch.B_ROC_INCREMENT Batch.NUM_STEPS)
    as (H1 & H2 & H3 & H4).
  rewrite H1, H2, H3, H4; cbn [Batch.fix_max].
  assert (HN : INR Batch.NUM_STEPS = 100).
  { unfold Batch.NUM_STEPS; rewrite (INR_IZR_INZ 100); reflexivity. }
  assert (Habs : Rabs Batch.B_ROC_INCREMENT = 0.05).
  { unfold Batch.B_ROC_INCREMENT; apply Rabs_pos_eq; lra. }
  rewrite Habs, HN.
  replace (Rmax 0 (100 * Batch.B_ROC_INCREMENT)) with 5
    by (unfold Batch.B_ROC_INCREMENT; rewrite Rmax_right; lra).
  replace (100 * 0.05 * PI * 0.09 * 0.065) with (5 * PI * 0.09 * 0.065) by lra.
  replace (0.33 * (0.045 * (100 * 0.05))) with 0.07425 by lra.
  replace (0.045 * (100 * 0.05)) with 0.225 by lra.
  reflexivity.
Qed.

(** ** The console of the interactive program *)

(** X14: the whole console of a successful interactive run, in order: the
    dialogue of [get_user_input], the parameter block, the high-field
    caution (only for B_max = 7), the classification of 0.045 * max_dB_dt,
    the summary block, the line naming the saved file, the count of 1001
    data points, the very same summary block a second time, and the closing
    line naming the file again. *)
Theorem main_console :
  forall (bad1 bad2 rest : list IO.entry) (m B : R),
    Forall rejected bad1 -> Forall rejected bad2 -> 0 < m -> 0 < B ->
    exists r,
      IO.main (bad1 ++ IO.Parsed m :: bad2 ++ IO.Parsed B :: rest) = Py.Ok r /\
      IO.run_console r
      = (input_title
           ++ flat_map reply_dB_dt bad1 ++ [IO.prompt_dB_dt]
           ++ flat_map reply_B_max bad2 ++ [IO.prompt_B_max])
        ++ (IO.parameter_lines 1000 m B
              ++ IO.high_field_lines B
              ++ IO.bioeffect_lines (0.045 * m)
              ++ IO.summary_lines (IO.run_table r))
        ++ ([ Lit (nl ++ "✓ Results saved to: ") :: IO.csv_filename m B;
              [Lit "✓ Total data points: "; Int 1001] ]
              ++ IO.summary_lines (IO.run_table r))
        ++ [Lit (nl ++ "Simulation complete! Check ") :: IO.csv_filename m B
              ++ [Lit " for detailed results."]].
Proof.
  intros bad1 bad2 rest m B H1 H2 Hm HB.
  assert (HN : INR IO.NUM_STEPS = 1000).
  { unfold IO.NUM_STEPS; rewrite (INR_IZR_INZ 1000); reflexivity. }
  assert (HE : IO.Max_E_field (io_row_at (m / INR IO.NUM_STEPS) IO.NUM_STEPS)
               = 0.045 * m).
  { rewrite io_E_field_at, HN, Rabs_pos_eq by lra. lra. }
  unfold IO.main.
  rewrite get_user_input_first_accepted by assumption.
  cbn [Py.bind IO.in_max_dB_dt IO.in_B_max IO.in_out].
  rewrite run_simulation_ok, HE.
  cbn [Py.bind IO.save_to_csv IO.file_name].
  eexists; split; [reflexivity|].
  cbn [IO.run_console IO.run_table].
  rewrite length_map, length_seq.
  reflexivity.
Qed.

Lemma main_console_witness :
  exists r,
    IO.main ([IO.Malformed] ++ IO.Parsed 5 :: [] ++ IO.Parsed 7 :: []) = Py.Ok r /\
    IO.run_console r
    = (input_title
         ++ flat_map reply_dB_dt [IO.Malformed] ++ [IO.prompt_dB_dt]
         ++ flat_map reply_B_max [] ++ [IO.prompt_B_max])
      ++ (IO.parameter_lines 1000 5 7
            ++ IO.high_field_lines 7
            ++ IO.bioeffect_lines (0.045 * 5)
            ++ IO.summary_lines (IO.run_table r))
      ++ ([ Lit (nl ++ "✓ Results saved to: ") :: IO.csv_filename 5 7;
            [Lit "✓ Total data points: "; Int 1001] ]
            ++ IO.summary_lines (IO.run_table r))
      ++ [Lit (nl ++ "Simulation complete! Check ") :: IO.csv_filename 5 7
            ++ [Lit " for detailed results."]].
Proof.
  apply (main_console [IO.Malformed] [] [] 5 7);
    try lra; repeat constructor.
Defined.
